(** * feed-sdk cold-start utilities: [load_coldstart.py] and [delete_coldstart.py]

    A shallow embedding of the two scripts and of the parts of their
    environment they talk to (process environment, the CSV reader, the
    psycopg2 connection and cursor), followed by the properties of the
    specification.

    Python values are modelled as follows.
    - [str] is a sequence of Unicode code points ([list N]); ASCII literals of
      the source are written [py "..."].
    - [int] is [Z].
    - [os.environ] is a finite map from [str] to [str].
    - The table [feed_coldstart] is a finite map keyed by [feed_id], the column
      the statement's [ON CONFLICT (feed_id)] clause names as unique.
    - Statements that raise are computations in a state-and-exception monad
      over the [world] the scripts act on. *)

From Stdlib Require Import ZArith NArith String Ascii List.
From stdpp Require Import base option list gmap fin_maps pretty.

Local Open Scope Z_scope.

(** ** Python strings *)

Definition char := N.
Definition str := list char.

(** An ASCII literal of the source as a [str]. *)
Definition py (s : string) : str :=
  List.map N_of_ascii (list_ascii_of_string s).

(** [Py_UNICODE_ISSPACE]: the code points [str.strip()] removes when called
    without argument. *)
Definition is_space (c : char) : bool :=
  ((0x09 <=? c) && (c <=? 0x0D))%N
  || ((0x1C <=? c) && (c <=? 0x20))%N
  || (c =? 0x85)%N || (c =? 0xA0)%N || (c =? 0x1680)%N
  || ((0x2000 <=? c) && (c <=? 0x200A))%N
  || (c =? 0x2028)%N || (c =? 0x2029)%N || (c =? 0x202F)%N
  || (c =? 0x205F)%N || (c =? 0x3000)%N.

Fixpoint lstrip (s : str) : str :=
  match s with
  | [] => []
  | c :: s' => if is_space c then lstrip s' else s
  end.

Definition rstrip (s : str) : str := rev (lstrip (rev s)).

(** [s.strip()] *)
Definition strip (s : str) : str := rstrip (lstrip s).

(** Truth value of a Python sequence: empty is false. *)
Definition truthy {A} (l : list A) : bool :=
  match l with [] => false | _ :: _ => true end.

(** ** Configuration: [DB_CONFIG] *)

(** [os.environ] as it stands once [load_dotenv()] has run, when [DB_CONFIG]
    is evaluated. *)
Abbreviation environ := (gmap str str).

(** [os.getenv(key, default)] *)
Definition getenv (env : environ) (key : str) (default : str) : str :=
  match env !! key with
  | Some v => v
  | None => default
  end.

Record config := {
  host : str;
  port : str;
  dbname : str;
  user : str;
  password : str;
}.

Definition DB_CONFIG (env : environ) : config := {|
  host := getenv env (py "DATABASE_HOST") (py "127.0.0.1");
  port := getenv env (py "DATABASE_PORT") (py "5432");
  dbname := getenv env (py "DATABASE_NAME") (py "apen");
  user := getenv env (py "DATABASE_USERNAME") (py "postgres");
  password := getenv env (py "DATABASE_PASSWORD") (py "");
|}.

Definition CSV_FILE : str := py "coldstart.csv".

(** ** The table and the statements sent to it *)

(** The columns of a row other than its key [feed_id]. *)
Record entry := {
  feed_type : str;
  position : Z;
}.

Abbreviation table := (gmap str entry).

Inductive statement :=
| DELETE_FROM_feed_coldstart
| INSERT_INTO_feed_coldstart (feed_id feed_type : str) (position : Z).

(** Effect of a statement on the rows the transaction sees, and the row count
    the driver reports for it. [INSERT ... ON CONFLICT (feed_id) DO NOTHING]
    leaves the table alone when the key is taken. *)
Definition run_statement (s : statement) (t : table) : table * Z :=
  match s with
  | DELETE_FROM_feed_coldstart => (∅, Z.of_nat (size t))
  | INSERT_INTO_feed_coldstart fid ftype pos =>
      match t !! fid with
      | Some _ => (t, 0)
      | None => (<[fid := {| feed_type := ftype; position := pos |}]> t, 1)
      end
  end.

(** ** Exceptions, the CSV file, the world *)

(** The [Exception] subclasses the modelled operations raise. *)
Inductive exn :=
| FileNotFoundError
| PermissionError
| OSError
| UnicodeDecodeError
| CsvError
| StopIteration
| Psycopg2Error (msg : string).

(** What can go wrong while the reader pulls the next line of the file. *)
Inductive read_fault := Undecodable | Malformed | IOFailure.

Definition read_exn (f : read_fault) : exn :=
  match f with
  | Undecodable => UnicodeDecodeError
  | Malformed => CsvError
  | IOFailure => OSError
  end.

(** One step of [csv.reader]: a parsed row (the list of its fields; a blank
    line parses to the empty list) or a failure. *)
Inductive read_item :=
| Row (fields : list str)
| Bad (f : read_fault).

(** The state of [coldstart.csv] in the working directory. *)
Inductive file :=
| Missing
| Forbidden
| Readable (items : list read_item).

(** Calls made on the driver and on the file, in order. *)
Inductive call :=
| Connect (cfg : config)
| Cursor
| Open (path : str)
| CloseFile
| Execute (s : statement)
| Commit
| Rollback
| CursorClose
| ConnectionClose.

(** The world the scripts act on. [stored] is the committed content of
    [feed_coldstart]; [txn] is the content as seen by the open transaction,
    if there is one. [oracle] lists the outcome of the calls to come that can
    fail, in call order: [connect], [cursor], [execute], [commit], [rollback]
    when a transaction is open, and [print]. [Some msg] makes the call raise,
    [None] or an exhausted list lets it go through. [close] always completes,
    and so does [rollback] when no statement has been sent. *)
Record world := {
  stored : table;
  txn : option table;
  conn_open : bool;
  cur_open : bool;
  rowcount : Z;
  oracle : list (option string);
  stdout : list str;
  trace : list call;
}.

Definition set_stored (t : table) (w : world) : world :=
  {| stored := t; txn := txn w; conn_open := conn_open w;
     cur_open := cur_open w; rowcount := rowcount w; oracle := oracle w;
     stdout := stdout w; trace := trace w |}.

Definition set_txn (t : option table) (w : world) : world :=
  {| stored := stored w; txn := t; conn_open := conn_open w;
     cur_open := cur_open w; rowcount := rowcount w; oracle := oracle w;
     stdout := stdout w; trace := trace w |}.

Definition set_conn_open (b : bool) (w : world) : world :=
  {| stored := stored w; txn := txn w; conn_open := b;
     cur_open := cur_open w; rowcount := rowcount w; oracle := oracle w;
     stdout := stdout w; trace := trace w |}.

Definition set_cur_open (b : bool) (w : world) : world :=
  {| stored := stored w; txn := txn w; conn_open := conn_open w;
     cur_open := b; rowcount := rowcount w; oracle := oracle w;
     stdout := stdout w; trace := trace w |}.

Definition set_rowcount (n : Z) (w : world) : world :=
  {| stored := stored w; txn := txn w; conn_open := conn_open w;
     cur_open := cur_open w; rowcount := n; oracle := oracle w;
     stdout := stdout w; trace := trace w |}.

Definition set_oracle (o : list (option string)) (w : world) : world :=
  {| stored := stored w; txn := txn w; conn_open := conn_open w;
     cur_open := cur_open w; rowcount := rowcount w; oracle := o;
     stdout := stdout w; trace := trace w |}.

Definition set_stdout (o : list str) (w : world) : world :=
  {| stored := stored w; txn := txn w; conn_open := conn_open w;
     cur_open := cur_open w; rowcount := rowcount w; oracle := oracle w;
     stdout := o; trace := trace w |}.

Definition set_trace (tr : list call) (w : world) : world :=
  {| stored := stored w; txn := txn w; conn_open := conn_open w;
     cur_open := cur_open w; rowcount := rowcount w; oracle := oracle w;
     stdout := stdout w; trace := tr |}.

(** ** Computations that change the world and may raise *)

Inductive outcome (A : Type) :=
| Ok (a : A)
| Raise (e : exn).
Arguments Ok {A} a.
Arguments Raise {A} e.

Definition M (A : Type) : Type := world -> outcome A * world.

Definition ret {A} (a : A) : M A := fun w => (Ok a, w).

Definition raise {A} (e : exn) : M A := fun w => (Raise e, w).

Definition bind {A B} (m : M A) (k : A -> M B) : M B :=
  fun w =>
    match m w with
    | (Ok a, w') => k a w'
    | (Raise e, w') => (Raise e, w')
    end.

Declare Scope py_scope.
Delimit Scope py_scope with py.
Notation "x <- m ;; k" := (bind m (fun x => k))
  (at level 100, m at next level, right associativity) : py_scope.
Notation "m ;; k" := (bind m (fun _ => k))
  (at level 100, right associativity) : py_scope.
Local Open Scope py_scope.

Definition modify (f : world -> world) : M unit := fun w => (Ok tt, f w).

(** [try: body  finally: final] *)
Definition try_finally {A} (body : M A) (final : M unit) : M A :=
  fun w =>
    let (r, w1) := body w in
    match final w1 with
    | (Ok _, w2) => (r, w2)
    | (Raise e, w2) => (Raise e, w2)
    end.

(** [try: body  except Exception as e: handler e  finally: final] *)
Definition try_except_finally {A}
    (body : M A) (handler : exn -> M A) (final : M unit) : M A :=
  try_finally
    (fun w =>
       match body w with
       | (Ok a, w1) => (Ok a, w1)
       | (Raise e, w1) => handler e w1
       end)
    final.

(** ** The driver: [psycopg2] connection and cursor *)

Definition log (c : call) : M unit :=
  modify (fun w => set_trace (trace w ++ [c]) w).

(** The oracle's word on the driver call under way. *)
Definition verdict (w : world) : outcome unit :=
  match head (oracle w) with
  | Some (Some msg) => Raise (Psycopg2Error msg)
  | _ => Ok tt
  end.

(** Ask the oracle whether the driver call under way fails. *)
Definition consult : M unit :=
  fun w => (verdict w, set_oracle (tail (oracle w)) w).

(** The rows the next statement of this session sees. *)
Definition working (w : world) : table :=
  match txn w with
  | Some t => t
  | None => stored w
  end.

(** [psycopg2.connect] with the keyword arguments [cfg]: a new session, no
    transaction open. *)
Definition connect (cfg : config) : M unit :=
  log (Connect cfg);;
  consult;;
  modify (fun w => set_conn_open true (set_txn None w)).

(** [conn.cursor()] *)
Definition cursor : M unit :=
  log Cursor;;
  consult;;
  modify (fun w => set_cur_open true (set_rowcount (-1) w)).

(** The transaction of the session is open from the first statement sent. *)
Definition begin : M unit :=
  modify (fun w => set_txn (Some (working w)) w).

(** [cur.execute(s)]: the first statement opens the transaction; a statement
    that fails changes no row. *)
Definition execute (s : statement) : M unit :=
  log (Execute s);;
  begin;;
  consult;;
  modify (fun w =>
            let result := run_statement s (working w) in
            set_rowcount (snd result) (set_txn (Some (fst result)) w)).

(** [conn.commit()] *)
Definition commit : M unit :=
  log Commit;;
  consult;;
  modify (fun w => set_txn None (set_stored (working w) w)).

(** [conn.rollback()]: nothing to do, and nothing that can fail, when no
    transaction is open; else the driver talks to the server, which can fail,
    and the transaction is then not ended by this call. *)
Definition rollback : M unit :=
  log Rollback;;
  (fun w => match txn w with
            | Some _ => consult w
            | None => (Ok tt, w)
            end);;
  modify (set_txn None).

(** [cur.close()] *)
Definition cursor_close : M unit :=
  log CursorClose;;
  modify (set_cur_open false).

(** [conn.close()]: what was not committed is discarded. *)
Definition connection_close : M unit :=
  log ConnectionClose;;
  modify (fun w => set_conn_open false (set_txn None w)).

(** [cur.rowcount] *)
Definition cursor_rowcount : M Z := fun w => (Ok (rowcount w), w).

(** [print(line)]: writing to standard output can fail, with an [OSError]. *)
Definition print (line : str) : M unit :=
  fun w =>
    match verdict w with
    | Ok _ =>
        (Ok tt, set_stdout (stdout w ++ [line]) (set_oracle (tail (oracle w)) w))
    | Raise _ => (Raise OSError, set_oracle (tail (oracle w)) w)
    end.

(** ** The CSV file and its reader *)

(** [open(path, encoding="utf-8")] *)
Definition open (fs : file) (path : str) : M (list read_item) :=
  log (Open path);;
  match fs with
  | Missing => raise FileNotFoundError
  | Forbidden => raise PermissionError
  | Readable items => ret items
  end.

(** [with open(path, encoding="utf-8") as f: body f] *)
Definition with_open {A} (fs : file) (path : str)
    (body : list read_item -> M A) : M A :=
  f <- open fs path;;
  try_finally (body f) (log CloseFile).

(** [next(reader)]: the row and the reader advanced past it. *)
Definition next (reader : list read_item) : M (list str * list read_item) :=
  match reader with
  | [] => raise StopIteration
  | Bad f :: _ => raise (read_exn f)
  | Row fields :: rest => ret (fields, rest)
  end.

(** ** [delete_coldstart.py] *)

Definition report_deleted (n : Z) : str :=
  py ("Deleted " +:+ pretty n +:+ " records from feed_coldstart").

(** The body of the [try] block. *)
Definition delete_try : M unit :=
  execute DELETE_FROM_feed_coldstart;;
  commit;;
  n <- cursor_rowcount;;
  print (report_deleted n).

Definition delete_coldstart (env : environ) : M unit :=
  connect (DB_CONFIG env);;
  cursor;;
  try_except_finally
    delete_try
    (fun e => rollback;; raise e)
    (cursor_close;; connection_close).

(** ** [load_coldstart.py] *)

Definition report_loaded (count : Z) : str :=
  py ("Loaded " +:+ pretty count +:+ " records into feed_coldstart").

(** [for position, row in enumerate(reader): ...], started at index
    [position] with [count] rows processed so far; returns the final [count]. *)
Fixpoint for_rows (reader : list read_item) (position count : Z) : M Z :=
  match reader with
  | [] => ret count
  | Bad f :: _ => raise (read_exn f)
  | Row row :: reader' =>
      match row with
      | [] => for_rows reader' (position + 1) count
      | field0 :: _ =>
          if negb (truthy (strip field0))
          then for_rows reader' (position + 1) count
          else
            let feed_id := strip field0 in
            execute (INSERT_INTO_feed_coldstart feed_id (py "post") position);;
            for_rows reader' (position + 1) (count + 1)
      end
  end.

(** The body of the [try] block. *)
Definition load_try (fs : file) : M unit :=
  count <- with_open fs CSV_FILE (fun reader =>
             hr <- next reader;;
             for_rows (snd hr) 0 0);;
  commit;;
  print (report_loaded count).

Definition load_coldstart (env : environ) (fs : file) : M unit :=
  connect (DB_CONFIG env);;
  cursor;;
  try_except_finally
    (load_try fs)
    (fun e => rollback;; raise e)
    (cursor_close;; connection_close).

(** ** Vocabulary of the specification *)

(** A field that is empty or holds white space only. *)
Definition whitespace_only (s : str) : bool := forallb is_space s.

(** A data row the Loader skips: no field at all, or a first field that is
    empty or white space only. *)
Definition blank_row (row : list str) : bool :=
  match row with
  | [] => true
  | field0 :: _ => whitespace_only field0
  end.

(** The tuple the data row of index [i] contributes: none for a blank row,
    else (trimmed first field, "post", [i]). *)
Definition spec_tuple (i : nat) (row : list str) : option statement :=
  match row with
  | [] => None
  | field0 :: _ =>
      if whitespace_only field0 then None
      else Some (INSERT_INTO_feed_coldstart (strip field0) (py "post")
                   (Z.of_nat i))
  end.

(** The inserts the specification asks for, for the data rows in file order,
    the first data row having index [k]. *)
Definition inserts_from (k : nat) (rows : list (list str)) : list statement :=
  omap id (imap (fun i => spec_tuple (k + i)) rows).

Definition spec_inserts (rows : list (list str)) : list statement :=
  inserts_from 0 rows.

(** The table after a statement. *)
Definition apply_statement (t : table) (s : statement) : table :=
  fst (run_statement s t).

(** The key an insert statement carries. *)
Definition key_of (s : statement) : option str :=
  match s with
  | DELETE_FROM_feed_coldstart => None
  | INSERT_INTO_feed_coldstart fid _ _ => Some fid
  end.

(** A CSV file that reads without failure: a header, then data rows. *)
Definition csv_file (header : list str) (rows : list (list str)) : file :=
  Readable (Row header :: List.map Row rows).

(** The error [open] raises on a file that cannot be read. *)
Definition access_error (fs : file) : option exn :=
  match fs with
  | Missing => Some FileNotFoundError
  | Forbidden => Some PermissionError
  | Readable _ => None
  end.

(** No driver call to come fails. *)
Definition quiet (o : list (option string)) : bool :=
  forallb (fun x => match x with None => true | Some _ => false end) o.

(** Connection and cursor acquisition, the two calls before the [try]. *)
Definition acquire (env : environ) : M unit :=
  connect (DB_CONFIG env);;
  cursor.

Definition acquired (env : environ) (w : world) : bool :=
  match fst (acquire env w) with
  | Ok _ => true
  | Raise _ => false
  end.

(** The world once the fallible call [c] has been logged and the oracle
    consulted. *)
Definition called (c : call) (w : world) : world :=
  set_oracle (tail (oracle w)) (set_trace (trace w ++ [c]) w).

(** The world after the handler's [conn.rollback()]. *)
Definition rolled_back (w : world) : world := snd (rollback w).

(** What the handler raises when the [try] block has raised [e] in [w]: [e]
    again, unless [conn.rollback()] raises first. *)
Definition handled {A} (e : exn) (w : world) : outcome A :=
  match fst (rollback w) with
  | Ok _ => Raise e
  | Raise e' => Raise e'
  end.

(** The world after the [finally] block. *)
Definition released (w : world) : world :=
  snd ((cursor_close;; connection_close) w).

(** What the row loop leaves alone. *)
Definition same_session (w w' : world) : Prop :=
  stored w' = stored w /\ stdout w' = stdout w /\
  conn_open w' = conn_open w /\ cur_open w' = cur_open w.

(** The calls a computation adds to the trace when run in [w]. *)
Definition calls {A} (m : M A) (w : world) : list call :=
  drop (length (trace w)) (trace (snd (m w))).

(** The statements among a list of calls. *)
Definition executed (cs : list call) : list statement :=
  omap (fun c => match c with Execute s => Some s | _ => None end) cs.

Definition is_rollback (c : call) : bool :=
  match c with Rollback => true | _ => false end.

(** What a run of the Loader over a well-formed file leaves when nothing
    fails. *)
Definition loaded (env : environ) (rows : list (list str)) (w w' : world) : Prop :=
  stored w' = foldl apply_statement (stored w) (spec_inserts rows) /\
  stdout w' =
    stdout w ++ [report_loaded (Z.of_nat (length (spec_inserts rows)))] /\
  trace w' =
    trace w ++
    [Connect (DB_CONFIG env); Cursor; Open CSV_FILE] ++
    List.map Execute (spec_inserts rows) ++
    [CloseFile; Commit; CursorClose; ConnectionClose] /\
  conn_open w' = false /\ cur_open w' = false /\ txn w' = None /\
  quiet (oracle w') = true.

(** ** Sample worlds *)

Definition post (pos : Z) : entry :=
  {| feed_type := py "post"; position := pos |}.

(** A database with an empty table, nothing connected, no fault to come. *)
Definition fresh : world :=
  {| stored := ∅; txn := None; conn_open := false; cur_open := false;
     rowcount := 0; oracle := []; stdout := []; trace := [] |}.

(** The same with some table content. *)
Definition holding (t : table) : world := set_stored t fresh.

(** The same with a script of driver outcomes. *)
Definition failing (o : list (option string)) (w : world) : world :=
  set_oracle o w.

Definition header : list str := [py "feed_id"; py "feed_type"].

(** ** Failures the specification names *)

(** The data rows read one after the other against the driver outcomes [o] to
    come: the first failure met, a reader's error or the error of an insert,
    or else the outcomes left once every row has been processed. *)
Fixpoint rows_failure (items : list read_item) (o : list (option string))
  : exn + list (option string) :=
  match items with
  | [] => inr o
  | Bad f :: _ => inl (read_exn f)
  | Row row :: items' =>
      if blank_row row then rows_failure items' o
      else
        match o with
        | Some msg :: _ => inl (Psycopg2Error msg)
        | _ => rows_failure items' (tail o)
        end
  end.

(** The first failure of the Loader between the opening of the file and the
    end of the commit, for the driver outcomes [o] to come: a file that
    cannot be opened, no first row, a row that cannot be read, an insert or
    the commit that fails. [None] when the commit completes. *)
Definition load_failure (fs : file) (o : list (option string)) : option exn :=
  match fs with
  | Missing => Some FileNotFoundError
  | Forbidden => Some PermissionError
  | Readable [] => Some StopIteration
  | Readable (Bad f :: _) => Some (read_exn f)
  | Readable (Row _ :: items) =>
      match rows_failure items o with
      | inl e => Some e
      | inr (Some msg :: _) => Some (Psycopg2Error msg)
      | inr _ => None
      end
  end.

(** The first failure of the Eraser up to the end of the commit: the delete
    or the commit that fails. [None] when the commit completes. *)
Definition delete_failure (o : list (option string)) : option exn :=
  match o with
  | Some msg :: _ => Some (Psycopg2Error msg)
  | _ =>
      match tail o with
      | Some msg :: _ => Some (Psycopg2Error msg)
      | _ => None
      end
  end.

(** ** Further vocabulary *)

(** What the reader yields after the first row of the file, the one
    [next(reader)] discards. *)
Definition data_items (fs : file) : list read_item :=
  match fs with
  | Readable (_ :: items) => items
  | _ => []
  end.

(** A row with its first field trimmed. *)
Definition trim_first (row : list str) : list str :=
  match row with
  | [] => []
  | field0 :: rest => strip field0 :: rest
  end.

(** The feed ids a list of statements carries. *)
Definition keys_of (ss : list statement) : list str := omap key_of ss.

(** The five variables [DB_CONFIG] reads. *)
Definition config_variables : list str :=
  [py "DATABASE_HOST"; py "DATABASE_PORT"; py "DATABASE_NAME";
   py "DATABASE_USERNAME"; py "DATABASE_PASSWORD"].

(** [s] is the insert of a non-blank row among [items]: the row's trimmed
    first field, "post", and the row's index counted from [p]. *)
Definition insert_of_row (items : list read_item) (p : Z) (s : statement) : Prop :=
  exists i field0 rest,
    items !! i = Some (Row (field0 :: rest)) /\
    whitespace_only field0 = false /\
    s = INSERT_INTO_feed_coldstart (strip field0) (py "post") (p + Z.of_nat i).

(** * Properties *)

(** ** Strings *)

Lemma lstrip_nil_iff (s : str) : lstrip s = [] <-> whitespace_only s = true.
Proof.
  unfold whitespace_only.
  induction s as [|c s IH]; simpl; [easy|].
  destruct (is_space c); simpl; [exact IH|].
  split; discriminate.
Qed.

Lemma lstrip_head (s : str) c s' : lstrip s = c :: s' -> is_space c = false.
Proof.
  induction s as [|d s IH]; simpl; [done|].
  destruct (is_space d) eqn:Hd; [exact IH|].
  intros [= -> _]. exact Hd.
Qed.

Lemma whitespace_only_rev (s : str) :
  whitespace_only (rev s) = whitespace_only s.
Proof.
  unfold whitespace_only.
  apply eq_true_iff_eq. rewrite !forallb_forall.
  split; intros H x Hx; apply H; [by rewrite <- in_rev | by rewrite <- in_rev in Hx].
Qed.

Lemma strip_nil_iff (s : str) : strip s = [] <-> whitespace_only s = true.
Proof.
  unfold strip, rstrip. split.
  - intros H. apply lstrip_nil_iff.
    destruct (lstrip s) as [|c s'] eqn:Hs; [done|].
    apply lstrip_head in Hs.
    assert (Hl : lstrip (rev (c :: s')) = []).
    { destruct (lstrip (rev (c :: s'))); [done|]. 
      apply (f_equal (@length _)) in H. rewrite length_rev in H. simpl in H. lia. }
    apply lstrip_nil_iff in Hl. rewrite whitespace_only_rev in Hl.
    simpl in Hl. rewrite Hs in Hl. discriminate.
  - intros H. apply lstrip_nil_iff in H. rewrite H. reflexivity.
Qed.

Lemma truthy_strip (s : str) : truthy (strip s) = negb (whitespace_only s).
Proof.
  destruct (whitespace_only s) eqn:H.
  - apply strip_nil_iff in H. by rewrite H.
  - destruct (strip s) eqn:Hs; [|done].
    apply strip_nil_iff in Hs. congruence.
Qed.

Example strip_inner_space_kept : strip (py "  f 1 ") = py "f 1".
Proof. reflexivity. Qed.

Example strip_tabs_and_newline : strip (9 :: 10 :: py "f1" ++ [13; 10])%N = py "f1".
Proof. reflexivity. Qed.

Example strip_ideographic_space : strip [0x3000; 0xA0]%N = [].
Proof. reflexivity. Qed.

Example report_loaded_two :
  report_loaded 2 = py "Loaded 2 records into feed_coldstart".
Proof. reflexivity. Qed.

Example report_deleted_forty :
  report_deleted 40 = py "Deleted 40 records from feed_coldstart".
Proof. reflexivity. Qed.

(** ** The inserts of the specification *)

Lemma inserts_from_cons k row rows :
  inserts_from k (row :: rows) =
  match spec_tuple k row with
  | Some s => s :: inserts_from (S k) rows
  | None => inserts_from (S k) rows
  end.
Proof.
  unfold inserts_from. simpl. rewrite Nat.add_0_r.
  assert (E : imap ((fun i => spec_tuple (k + i)%nat) ∘ S) rows
              = imap (fun i => spec_tuple (S k + i)%nat) rows).
  { apply imap_ext. intros i x _. simpl. f_equal. lia. }
  rewrite E. by destruct (spec_tuple k row).
Qed.

(** ** Steps of the driver *)

Lemma quiet_tail o : quiet o = true -> quiet (tail o) = true.
Proof. destruct o as [|[?|] o]; simpl; done. Qed.

Lemma connect_run cfg w :
  connect cfg w =
  match verdict w with
  | Ok _ => (Ok tt, set_conn_open true (set_txn None (called (Connect cfg) w)))
  | Raise e => (Raise e, called (Connect cfg) w)
  end.
Proof.
  unfold connect, log, consult, modify, bind, called. simpl.
  reflexivity.
Qed.

Lemma cursor_run w :
  cursor w =
  match verdict w with
  | Ok _ => (Ok tt, set_cur_open true (set_rowcount (-1) (called Cursor w)))
  | Raise e => (Raise e, called Cursor w)
  end.
Proof.
  unfold cursor, log, consult, modify, bind, called. simpl.
  reflexivity.
Qed.

Lemma execute_run s w :
  execute s w =
  match verdict w with
  | Ok _ =>
      (Ok tt,
       set_rowcount (snd (run_statement s (working w)))
         (set_txn (Some (apply_statement (working w) s))
            (called (Execute s) w)))
  | Raise e => (Raise e, set_txn (Some (working w)) (called (Execute s) w))
  end.
Proof.
  unfold execute, begin, log, consult, modify, bind, called. simpl.
  unfold verdict. simpl. by destruct (head (oracle w)) as [[?|]|].
Qed.

Lemma rollback_run w :
  rollback w =
  match txn w with
  | Some _ =>
      match verdict w with
      | Ok _ => (Ok tt, set_txn None (called Rollback w))
      | Raise e => (Raise e, called Rollback w)
      end
  | None => (Ok tt, set_txn None (set_trace (trace w ++ [Rollback]) w))
  end.
Proof.
  unfold rollback, log, consult, modify, bind, called. simpl.
  destruct (txn w); [|done].
  unfold verdict. simpl. by destruct (head (oracle w)) as [[?|]|].
Qed.

Lemma commit_run w :
  commit w =
  match verdict w with
  | Ok _ => (Ok tt, set_txn None (set_stored (working w) (called Commit w)))
  | Raise e => (Raise e, called Commit w)
  end.
Proof.
  unfold commit, log, consult, modify, bind, called. simpl.
  reflexivity.
Qed.

Lemma verdict_quiet w : quiet (oracle w) = true -> verdict w = Ok tt.
Proof. unfold verdict. by destruct (oracle w) as [|[?|] o]. Qed.

Lemma print_quiet line w :
  quiet (oracle w) = true ->
  print line w =
  (Ok tt, set_stdout (stdout w ++ [line]) (set_oracle (tail (oracle w)) w)).
Proof. intros Hq. unfold print. by rewrite (verdict_quiet _ Hq). Qed.

Lemma for_rows_general reader :
  forall p c w r w',
    for_rows reader p c w = (r, w') ->
    same_session w w' /\
    exists ss,
      trace w' = trace w ++ List.map Execute ss /\
      forall c', r = Ok c' ->
        working w' = foldl apply_statement (working w) ss /\
        c' = c + Z.of_nat (length ss).
Proof.
  induction reader as [|item reader IH]; intros p c w r w' H; simpl in H.
  - injection H as <- <-. split; [done|]. exists []. simpl.
    rewrite app_nil_r. split; [done|]. intros c' [= <-]. split; [done | lia].
  - destruct item as [row|f].
    + destruct row as [|field0 rest]; [by eapply IH|].
      destruct (truthy (strip field0)); simpl in H; [| by eapply IH].
      unfold bind in H. rewrite execute_run in H.
      destruct (verdict w).
      * apply IH in H as [(?&?&?&?) (ss & Htr & Hok)]. split; [done|].
        eexists (_ :: ss). simpl in *. rewrite Htr, <- app_assoc. split; [done|].
        intros c' ->. destruct (Hok _ eq_refl) as [-> ->]. split; [done | lia].
      * injection H as <- <-. split; [done|].
        exists [INSERT_INTO_feed_coldstart (strip field0) (py "post") p].
        simpl. split; [done|]. discriminate.
    + injection H as <- <-. split; [done|]. exists []. simpl.
      rewrite app_nil_r. split; [done|]. discriminate.
Qed.

(** ** The row loop when nothing fails *)

Lemma for_rows_quiet rows :
  forall k c w,
    quiet (oracle w) = true ->
    exists w',
      for_rows (List.map Row rows) (Z.of_nat k) c w =
        (Ok (c + Z.of_nat (length (inserts_from k rows))), w') /\
      trace w' = trace w ++ List.map Execute (inserts_from k rows) /\
      working w' = foldl apply_statement (working w) (inserts_from k rows) /\
      same_session w w' /\
      quiet (oracle w') = true.
Proof.
  induction rows as [|row rows IH]; intros k c w Hq.
  - exists w. simpl. rewrite app_nil_r, Z.add_0_r. done.
  - rewrite inserts_from_cons. simpl.
    replace (Z.of_nat k + 1) with (Z.of_nat (S k)) by lia.
    destruct row as [|field0 rest]; simpl; [by apply IH|].
    rewrite truthy_strip.
    destruct (whitespace_only field0); simpl; [by apply IH|].
    unfold bind. rewrite execute_run, (verdict_quiet _ Hq).
    edestruct (IH (S k) (c + 1)) as (w' & Hrun & Htr & Hw & Hs & Hq');
      last first.
    + exists w'. rewrite Hrun. split; [f_equal; f_equal; lia|].
      split; [rewrite Htr; simpl; by rewrite <- app_assoc|].
      split; [exact Hw|]. split; [exact Hs | exact Hq'].
    + simpl. by apply quiet_tail.
Qed.

(** ** The [try] / [except] / [finally] frame of both scripts *)

Lemma protected_run {A} (body : M A) w :
  try_except_finally body (fun e => rollback;; raise e)
    (cursor_close;; connection_close) w =
  match body w with
  | (Ok a, w1) => (Ok a, released w1)
  | (Raise e, w1) => (handled e w1, released (rolled_back w1))
  end.
Proof.
  unfold try_except_finally, try_finally, handled, rolled_back.
  destruct (body w) as [[a|e] w1]; [reflexivity|].
  unfold bind at 1. by destruct (rollback w1) as [[[]|e'] w2].
Qed.

Lemma acquire_run env w :
  acquire env w =
  match verdict w with
  | Ok _ =>
      cursor (set_conn_open true (set_txn None (called (Connect (DB_CONFIG env)) w)))
  | Raise e => (Raise e, called (Connect (DB_CONFIG env)) w)
  end.
Proof.
  unfold acquire, bind. rewrite connect_run. by destruct (verdict w).
Qed.

Lemma load_coldstart_frame env fs w :
  load_coldstart env fs w =
  match acquire env w with
  | (Ok _, w1) =>
      match load_try fs w1 with
      | (Ok a, w2) => (Ok a, released w2)
      | (Raise e, w2) => (handled e w2, released (rolled_back w2))
      end
  | (Raise e, w1) => (Raise e, w1)
  end.
Proof.
  unfold load_coldstart, acquire, bind.
  destruct (connect (DB_CONFIG env) w) as [[[]|e] w1]; [|done].
  destruct (cursor w1) as [[[]|e] w2]; [|done].
  apply protected_run.
Qed.

Lemma delete_coldstart_frame env w :
  delete_coldstart env w =
  match acquire env w with
  | (Ok _, w1) =>
      match delete_try w1 with
      | (Ok a, w2) => (Ok a, released w2)
      | (Raise e, w2) => (handled e w2, released (rolled_back w2))
      end
  | (Raise e, w1) => (Raise e, w1)
  end.
Proof.
  unfold delete_coldstart, acquire, bind.
  destruct (connect (DB_CONFIG env) w) as [[[]|e] w1]; [|done].
  destruct (cursor w1) as [[[]|e] w2]; [|done].
  apply (protected_run delete_try).
Qed.

(** What acquisition leaves when it succeeds. *)
Lemma acquire_ok env w w1 :
  acquire env w = (Ok tt, w1) ->
  stored w1 = stored w /\ stdout w1 = stdout w /\ txn w1 = None /\
  conn_open w1 = true /\ cur_open w1 = true /\
  trace w1 = trace w ++ [Connect (DB_CONFIG env); Cursor] /\
  oracle w1 = tail (tail (oracle w)).
Proof.
  rewrite acquire_run. destruct (verdict w); [|discriminate].
  rewrite cursor_run. destruct (verdict _); [|discriminate].
  intros [= <-]. simpl. rewrite <- app_assoc. done.
Qed.

Lemma acquire_fail env w e w1 :
  acquire env w = (Raise e, w1) ->
  stored w1 = stored w /\ stdout w1 = stdout w.
Proof.
  rewrite acquire_run. destruct (verdict w); [|by intros [= <- <-]].
  rewrite cursor_run. destruct (verdict _); [discriminate|].
  by intros [= <- <-].
Qed.

Lemma released_facts w :
  stored (released w) = stored w /\ stdout (released w) = stdout w /\
  txn (released w) = None /\
  conn_open (released w) = false /\ cur_open (released w) = false /\
  trace (released w) = trace w ++ [CursorClose; ConnectionClose] /\
  oracle (released w) = oracle w.
Proof. unfold released. simpl. rewrite <- app_assoc. done. Qed.

Lemma rolled_back_facts w :
  stored (rolled_back w) = stored w /\ stdout (rolled_back w) = stdout w /\
  trace (rolled_back w) = trace w ++ [Rollback] /\
  conn_open (rolled_back w) = conn_open w.
Proof.
  unfold rolled_back. rewrite rollback_run.
  destruct (txn w); [|done]. by destruct (verdict w).
Qed.

Lemma handled_raises {A} e w : exists e', @handled A e w = Raise e'.
Proof. unfold handled. destruct (fst (rollback w)); by eexists. Qed.

Lemma handled_not_ok {A} e w (a : A) : handled e w <> Ok a.
Proof. unfold handled. by destruct (fst (rollback w)). Qed.

Lemma handled_no_transaction {A} e w : txn w = None -> @handled A e w = Raise e.
Proof. intros H. unfold handled. rewrite rollback_run, H. done. Qed.

Lemma handled_quiet {A} e w :
  quiet (oracle w) = true -> @handled A e w = Raise e.
Proof.
  intros Hq. unfold handled. rewrite rollback_run.
  destruct (txn w); [|done]. by rewrite (verdict_quiet _ Hq).
Qed.

Lemma executes_no_rollback ss :
  forallb (fun c => negb (is_rollback c)) (List.map Execute ss) = true.
Proof. induction ss; simpl; done. Qed.

(** ** The [try] block of the Loader *)

Lemma load_try_general fs w r w' :
  load_try fs w = (r, w') ->
  match r with
  | Ok _ =>
      exists ss,
        trace w' =
          trace w ++ Open CSV_FILE :: List.map Execute ss ++ [CloseFile; Commit] /\
        stored w' = foldl apply_statement (working w) ss /\
        stdout w' = stdout w ++ [report_loaded (Z.of_nat (length ss))]
  | Raise e =>
      stdout w' = stdout w /\
      (exists cs, trace w' = trace w ++ Open CSV_FILE :: cs /\
                  forallb (fun c => negb (is_rollback c)) cs = true) /\
      (stored w' = stored w \/
       (e = OSError /\ txn w' = None /\
        exists ss,
          trace w' =
            trace w ++
            Open CSV_FILE :: List.map Execute ss ++ [CloseFile; Commit] /\
          stored w' = foldl apply_statement (working w) ss))
  end.
Proof.
  unfold load_try, with_open, open.
  destruct fs as [| |items].
  - intros [= <- <-]. simpl. split; [done|]. split; [by exists []|by left].
  - intros [= <- <-]. simpl. split; [done|]. split; [by exists []|by left].
  - destruct items as [|[hdr|f] reader].
    + intros [= <- <-]. simpl. split; [done|]. split; [|by left].
      exists [CloseFile]. by rewrite <- app_assoc.
    + unfold bind, try_finally, log, modify, ret, next. simpl.
      destruct (for_rows reader 0 0 _) as [r1 w1] eqn:Hloop.
      apply for_rows_general in Hloop as [(Hst & Hout & _ & _) (ss & Htr & Hok)].
      simpl in *.
      destruct r1 as [count|e].
      * destruct (Hok _ eq_refl) as [Hw ->]. rewrite commit_run.
        destruct (verdict _).
        -- unfold print. destruct (verdict _).
           ++ intros [= <- <-]. exists ss. unfold working in *. simpl in *.
              rewrite Htr, Hw, Hout, <- !app_assoc. done.
           ++ intros [= <- <-]. unfold working in *. simpl in *.
              split; [done|]. split.
              ** eexists. rewrite Htr, <- !app_assoc. simpl. split; [done|].
                 by rewrite !forallb_app, executes_no_rollback.
              ** right. split; [done|]. split; [done|]. exists ss.
                 rewrite Htr, Hw, <- !app_assoc. done.
        -- intros [= <- <-]. simpl. rewrite Hst, Hout. split; [done|].
           split; [|by left].
           eexists. rewrite Htr, <- !app_assoc. simpl. split; [done|].
           by rewrite !forallb_app, executes_no_rollback.
      * intros [= <- <-]. simpl. rewrite Hst, Hout. split; [done|].
        split; [|by left].
        eexists. rewrite Htr, <- !app_assoc. simpl. split; [done|].
        by rewrite !forallb_app, executes_no_rollback.
    + intros [= <- <-]. simpl. split; [done|]. split; [|by left].
      exists [CloseFile]. by rewrite <- app_assoc.
Qed.

(** ** The [try] block of the Loader when nothing fails *)

Lemma load_try_quiet hdr rows w :
  quiet (oracle w) = true ->
  exists w',
    load_try (csv_file hdr rows) w = (Ok tt, w') /\
    trace w' =
      trace w ++
      Open CSV_FILE :: List.map Execute (spec_inserts rows) ++ [CloseFile; Commit] /\
    stored w' = foldl apply_statement (working w) (spec_inserts rows) /\
    stdout w' =
      stdout w ++ [report_loaded (Z.of_nat (length (spec_inserts rows)))] /\
    quiet (oracle w') = true.
Proof.
  intros Hq. unfold load_try, csv_file, with_open, open.
  unfold bind, try_finally, log, modify, ret, next. simpl.
  destruct (for_rows_quiet rows 0 0 (set_trace (trace w ++ [Open CSV_FILE]) w) Hq)
    as (w1 & Hrun & Htr & Hw & (Hst & Hout & _ & _) & Hq1).
  change (Z.of_nat 0) with 0 in Hrun. rewrite Hrun. simpl.
  rewrite commit_run, verdict_quiet by exact Hq1.
  rewrite print_quiet by (simpl; by apply quiet_tail).
  eexists. split; [reflexivity|]. unfold working in *. simpl in *.
  rewrite Htr, Hw, Hout, <- !app_assoc.
  repeat split. by do 2 apply quiet_tail.
Qed.

Lemma acquire_quiet env w :
  quiet (oracle w) = true ->
  exists w1, acquire env w = (Ok tt, w1) /\ quiet (oracle w1) = true.
Proof.
  intros Hq. rewrite acquire_run, (verdict_quiet _ Hq).
  rewrite cursor_run, verdict_quiet by (by apply quiet_tail).
  eexists. split; [reflexivity|]. simpl. by do 2 apply quiet_tail.
Qed.

Lemma load_coldstart_quiet env hdr rows w :
  quiet (oracle w) = true ->
  exists w',
    load_coldstart env (csv_file hdr rows) w = (Ok tt, w') /\
    loaded env rows w w'.
Proof.
  intros Hq. rewrite load_coldstart_frame.
  destruct (acquire_quiet env w Hq) as (w1 & Hacq & Hq1). rewrite Hacq.
  apply acquire_ok in Hacq as (Hst & Hout & Htxn & _ & _ & Htr & _).
  destruct (load_try_quiet hdr rows w1 Hq1) as (w2 & Hrun & Htr2 & Hst2 & Hout2 & Hq2).
  rewrite Hrun. eexists. split; [reflexivity|].
  unfold loaded, working in *.
  destruct (released_facts w2) as (-> & -> & -> & -> & -> & -> & ->).
  rewrite Htxn in Hst2.
  rewrite Hst2, Hout2, Htr2, Htr, Hst, Hout, <- !app_assoc. simpl.
  rewrite <- !app_assoc. done.
Qed.

(** ** What the inserts of the specification are *)

Lemma spec_tuple_Some i row s :
  spec_tuple i row = Some s <->
  exists field0 rest,
    row = field0 :: rest /\ whitespace_only field0 = false /\
    s = INSERT_INTO_feed_coldstart (strip field0) (py "post") (Z.of_nat i).
Proof.
  destruct row as [|f rest]; simpl.
  - split; [done|]. by intros (? & ? & ? & _).
  - destruct (whitespace_only f) eqn:Hf.
    + split; [done|]. intros (? & ? & [= <- <-] & ? & _). congruence.
    + split.
      * intros [= <-]. by exists f, rest.
      * by intros (? & ? & [= <- <-] & _ & ->).
Qed.

Lemma spec_tuple_None i row : spec_tuple i row = None <-> blank_row row = true.
Proof.
  destruct row as [|f rest]; simpl; [done|].
  by destruct (whitespace_only f).
Qed.

Lemma elem_of_inserts_from k rows s :
  s ∈ inserts_from k rows <->
  exists i field0 rest,
    rows !! i = Some (field0 :: rest) /\ whitespace_only field0 = false /\
    s = INSERT_INTO_feed_coldstart (strip field0) (py "post") (Z.of_nat (k + i)).
Proof.
  unfold inserts_from. rewrite list_elem_of_omap. split.
  - intros (o & Ho & Hs). simpl in Hs. subst o.
    apply elem_of_lookup_imap in Ho as (i & row & Ho & Hrow).
    symmetry in Ho. apply spec_tuple_Some in Ho as (f & rest & -> & Hf & ->).
    by exists i, f, rest.
  - intros (i & f & rest & Hrow & Hf & ->).
    exists (Some (INSERT_INTO_feed_coldstart (strip f) (py "post") (Z.of_nat (k + i)))).
    split; [|done]. apply elem_of_lookup_imap. exists i, (f :: rest).
    split; [|done]. symmetry. apply spec_tuple_Some. by exists f, rest.
Qed.

Lemma length_inserts_from k rows :
  length (inserts_from k rows) =
  length (List.filter (fun row => negb (blank_row row)) rows).
Proof.
  revert k. induction rows as [|row rows IH]; intros k; [done|].
  rewrite inserts_from_cons. simpl.
  destruct (spec_tuple k row) as [s|] eqn:Hs.
  - assert (Hb : blank_row row = false).
    { destruct (blank_row row) eqn:Hb; [|done].
      apply spec_tuple_None with (i := k) in Hb. congruence. }
    rewrite Hb. simpl. by rewrite IH.
  - apply spec_tuple_None in Hs. rewrite Hs. simpl. apply IH.
Qed.

Lemma inserts_from_keys k rows :
  Forall (fun s => is_Some (key_of s)) (inserts_from k rows).
Proof.
  apply Forall_forall. intros s Hs.
  apply elem_of_inserts_from in Hs as (i & f & rest & _ & _ & ->). by eexists.
Qed.

(** ** Insert-or-ignore over a table *)

Lemma apply_conflict t fid ftype pos :
  is_Some (t !! fid) ->
  run_statement (INSERT_INTO_feed_coldstart fid ftype pos) t = (t, 0).
Proof. intros [e He]. simpl. by rewrite He. Qed.

Lemma apply_fresh t fid ftype pos :
  t !! fid = None ->
  run_statement (INSERT_INTO_feed_coldstart fid ftype pos) t =
  (<[fid := {| feed_type := ftype; position := pos |}]> t, 1).
Proof. intros He. simpl. by rewrite He. Qed.

Lemma apply_keeps t s fid e :
  is_Some (key_of s) -> t !! fid = Some e ->
  apply_statement t s !! fid = Some e.
Proof.
  destruct s as [|k ftype pos]; intros [? Hk] He; [done|].
  unfold apply_statement. simpl.
  destruct (t !! k) eqn:Htk; simpl; [done|].
  rewrite lookup_insert_ne; [done|]. congruence.
Qed.

Lemma apply_other t s fid :
  key_of s <> Some fid -> is_Some (key_of s) -> 
  apply_statement t s !! fid = t !! fid.
Proof.
  destruct s as [|k ftype pos]; intros Hne [? Hk]; [done|].
  unfold apply_statement. simpl in *.
  destruct (t !! k) eqn:Htk; simpl; [done|].
  rewrite lookup_insert_ne; [done|]. congruence.
Qed.

Lemma apply_has_key t s fid :
  key_of s = Some fid -> is_Some (apply_statement t s !! fid).
Proof.
  destruct s as [|k ftype pos]; [done|]. intros [= ->].
  unfold apply_statement. simpl.
  destruct (t !! fid) eqn:Ht; simpl; [by rewrite Ht|].
  rewrite lookup_insert_eq. by eexists.
Qed.

Lemma foldl_keeps ss :
  forall t fid e,
    Forall (fun s => is_Some (key_of s)) ss ->
    t !! fid = Some e ->
    foldl apply_statement t ss !! fid = Some e.
Proof.
  induction ss as [|s ss IH]; intros t fid e Hall He; [done|].
  apply Forall_cons in Hall as [Hs Hall]. simpl.
  apply IH; [done|]. by apply apply_keeps.
Qed.

Lemma foldl_has_keys ss :
  forall t s fid,
    Forall (fun s => is_Some (key_of s)) ss ->
    s ∈ ss -> key_of s = Some fid ->
    is_Some (foldl apply_statement t ss !! fid).
Proof.
  induction ss as [|s0 ss IH]; intros t s fid Hall Hin Hk.
  - by apply elem_of_nil in Hin.
  - apply Forall_cons in Hall as [Hs Hall]. simpl.
    apply elem_of_cons in Hin as [->|Hin].
    + destruct (apply_has_key t s0 fid Hk) as [e He].
      exists e. by apply foldl_keeps.
    + by eapply IH.
Qed.

Lemma foldl_conflicts ss :
  forall t,
    (forall s, s ∈ ss -> exists fid, key_of s = Some fid /\ is_Some (t !! fid)) ->
    foldl apply_statement t ss = t.
Proof.
  induction ss as [|s ss IH]; intros t Hall; [done|]. simpl.
  destruct (Hall s) as (fid & Hk & Hin); [by left|].
  destruct s as [|k ftype pos]; [done|]. injection Hk as ->.
  unfold apply_statement at 2. rewrite apply_conflict by done. simpl.
  apply IH. intros s Hs. apply Hall. by right.
Qed.

Lemma size_apply t s :
  is_Some (key_of s) -> (size (apply_statement t s) <= S (size t))%nat.
Proof.
  destruct s as [|k ftype pos]; intros [? Hk]; [done|].
  unfold apply_statement. simpl.
  destruct (t !! k) eqn:Htk; simpl; [lia|].
  rewrite map_size_insert_None by done. lia.
Qed.

Lemma size_foldl ss :
  forall t,
    Forall (fun s => is_Some (key_of s)) ss ->
    (size (foldl apply_statement t ss) <= size t + length ss)%nat.
Proof.
  induction ss as [|s ss IH]; intros t Hall; simpl; [lia|].
  apply Forall_cons in Hall as [Hs Hall].
  specialize (IH (apply_statement t s) Hall).
  pose proof (size_apply t s Hs). lia.
Qed.

(** The first data row that carries a feed id decides the entry. *)
Lemma lookup_after_inserts rows :
  forall k t i field0 rest,
    rows !! i = Some (field0 :: rest) ->
    whitespace_only field0 = false ->
    t !! strip field0 = None ->
    (forall j g rest', (j < i)%nat -> rows !! j = Some (g :: rest') ->
                       whitespace_only g = false -> strip g <> strip field0) ->
    foldl apply_statement t (inserts_from k rows) !! strip field0 =
    Some (post (Z.of_nat (k + i))).
Proof.
  induction rows as [|row rows IH]; intros k t i f rest Hrow Hf Ht Hfirst;
    [done|].
  rewrite inserts_from_cons.
  destruct i as [|i]; simpl in Hrow.
  - injection Hrow as ->. simpl. rewrite Hf. simpl.
    apply foldl_keeps; [apply inserts_from_keys|].
    unfold apply_statement. rewrite apply_fresh by done. simpl.
    rewrite lookup_insert_eq, Nat.add_0_r. done.
  - replace (k + S i)%nat with (S k + i)%nat by lia.
    assert (Hrest : forall j g rest', (j < i)%nat ->
              rows !! j = Some (g :: rest') ->
              whitespace_only g = false -> strip g <> strip f).
    { intros j g rest' Hj Hg. apply (Hfirst (S j) g rest'); [lia | done]. }
    destruct (spec_tuple k row) as [s|] eqn:Hs.
    + cbn [foldl]. eapply IH; try done.
      apply spec_tuple_Some in Hs as (g & rest' & -> & Hg & ->).
      rewrite apply_other; [done| |by eexists].
      simpl. intros [= Heq]. by apply (Hfirst 0%nat g rest'); [lia| | |].
    + by eapply IH.
Qed.

(** ** Calls and executed statements of a run *)

Lemma calls_of {A} (m : M A) w cs :
  trace (snd (m w)) = trace w ++ cs -> calls m w = cs.
Proof. unfold calls. intros ->. apply drop_app_length. Qed.

Lemma executed_executes ss : executed (List.map Execute ss) = ss.
Proof. induction ss as [|s ss IH]; simpl; [done | by rewrite IH]. Qed.

Lemma executed_app cs1 cs2 : executed (cs1 ++ cs2) = executed cs1 ++ executed cs2.
Proof. apply omap_app. Qed.

(** The run of the Loader over a well-formed file when nothing fails, in terms
    of [calls]. *)
Lemma load_coldstart_summary env hdr rows w :
  quiet (oracle w) = true ->
  let run := load_coldstart env (csv_file hdr rows) in
  fst (run w) = Ok tt /\
  loaded env rows w (snd (run w)) /\
  calls run w =
    [Connect (DB_CONFIG env); Cursor; Open CSV_FILE] ++
    List.map Execute (spec_inserts rows) ++
    [CloseFile; Commit; CursorClose; ConnectionClose] /\
  executed (calls run w) = spec_inserts rows.
Proof.
  intros Hq run. subst run.
  destruct (load_coldstart_quiet env hdr rows w Hq) as (w' & Hrun & Hl).
  assert (Hc : calls (load_coldstart env (csv_file hdr rows)) w =
    [Connect (DB_CONFIG env); Cursor; Open CSV_FILE] ++
    List.map Execute (spec_inserts rows) ++
    [CloseFile; Commit; CursorClose; ConnectionClose]).
  { apply calls_of. rewrite Hrun. simpl. apply Hl. }
  rewrite Hc, Hrun. simpl. repeat split; try apply Hl.
  by rewrite executed_app, executed_executes, app_nil_r.
Qed.

(** ** Runs with failures *)

Lemma acquired_run env w :
  acquired env w = true ->
  exists w1, acquire env w = (Ok tt, w1) /\ snd (acquire env w) = w1.
Proof.
  unfold acquired. destruct (acquire env w) as [[[]|e] w1]; [|done].
  intros _. by exists w1.
Qed.

Lemma delete_try_general w r w' :
  delete_try w = (r, w') ->
  match r with
  | Ok _ =>
      trace w' = trace w ++ [Execute DELETE_FROM_feed_coldstart; Commit] /\
      stored w' = ∅ /\
      stdout w' = stdout w ++ [report_deleted (Z.of_nat (size (working w)))]
  | Raise e =>
      stdout w' = stdout w /\
      (exists cs, trace w' = trace w ++ cs /\
                  forallb (fun c => negb (is_rollback c)) cs = true) /\
      (stored w' = stored w \/
       (e = OSError /\ txn w' = None /\
        trace w' = trace w ++ [Execute DELETE_FROM_feed_coldstart; Commit] /\
        stored w' = ∅))
  end.
Proof.
  unfold delete_try, bind. rewrite execute_run.
  destruct (verdict w).
  - rewrite commit_run. destruct (verdict _).
    + unfold cursor_rowcount, print. destruct (verdict _).
      * intros [= <- <-]. simpl. by rewrite <- app_assoc.
      * intros [= <- <-]. simpl. split; [done|]. split.
        -- exists [Execute DELETE_FROM_feed_coldstart; Commit].
           by rewrite <- app_assoc.
        -- right. by rewrite <- app_assoc.
    + intros [= <- <-]. simpl. split; [done|]. split; [|by left].
      exists [Execute DELETE_FROM_feed_coldstart; Commit].
      by rewrite <- app_assoc.
  - intros [= <- <-]. simpl. split; [done|]. split; [|by left].
    by exists [Execute DELETE_FROM_feed_coldstart].
Qed.

(** Whatever the [try] block does, the first call of a script is the
    connection, made with [DB_CONFIG]. *)
Lemma framed_first_call (script body : M unit) env w :
  script w =
    match acquire env w with
    | (Ok _, w1) =>
        match body w1 with
        | (Ok a, w2) => (Ok a, released w2)
        | (Raise e, w2) => (handled e w2, released (rolled_back w2))
        end
    | (Raise e, w1) => (Raise e, w1)
    end ->
  (forall w1 r w2, body w1 = (r, w2) -> exists cs, trace w2 = trace w1 ++ cs) ->
  head (calls script w) = Some (Connect (DB_CONFIG env)).
Proof.
  intros Hframe Hbody. unfold calls. rewrite Hframe.
  destruct (acquire env w) as [[[]|e] w1] eqn:Hacq.
  - apply acquire_ok in Hacq as (_ & _ & _ & _ & _ & Htr & _).
    destruct (body w1) as [[[]|e] w2] eqn:Htry;
      apply Hbody in Htry as (cs & Htr2); cbn [fst snd].
    + destruct (released_facts w2) as (_ & _ & _ & _ & _ & -> & _).
      rewrite Htr2, Htr, <- !app_assoc. by rewrite drop_app_length.
    + destruct (released_facts (rolled_back w2)) as (_ & _ & _ & _ & _ & -> & _).
      destruct (rolled_back_facts w2) as (_ & _ & -> & _).
      rewrite Htr2, Htr, <- !app_assoc. by rewrite drop_app_length.
  - revert Hacq. rewrite acquire_run. destruct (verdict w).
    + rewrite cursor_run. destruct (verdict _); [done|].
      intros [= _ <-]. simpl. rewrite <- app_assoc. by rewrite drop_app_length.
    + intros [= _ <-]. simpl. by rewrite drop_app_length.
Qed.

Lemma load_try_trace fs w r w' :
  load_try fs w = (r, w') -> exists cs, trace w' = trace w ++ cs.
Proof.
  intros H. apply load_try_general in H. destruct r as [[]|e].
  - destruct H as (ss & -> & _). by eexists.
  - destruct H as (_ & (cs & -> & _) & _). by eexists.
Qed.

Lemma delete_try_trace w r w' :
  delete_try w = (r, w') -> exists cs, trace w' = trace w ++ cs.
Proof.
  intros H. apply delete_try_general in H. destruct r as [[]|e].
  - destruct H as (-> & _). by eexists.
  - destruct H as (_ & (cs & -> & _) & _). by eexists.
Qed.

(** ** The failures the specification names, and what the code does of them *)

Lemma for_rows_failure items :
  forall p c w,
    match rows_failure items (oracle w) with
    | inl e => fst (for_rows items p c w) = Raise e
    | inr o =>
        (exists c', fst (for_rows items p c w) = Ok c') /\
        oracle (snd (for_rows items p c w)) = o
    end.
Proof.
  induction items as [|item items IH]; intros p c w; simpl.
  - split; [by eexists | done].
  - destruct item as [row|f]; [|done].
    destruct row as [|field0 rest]; simpl; [apply IH|].
    rewrite truthy_strip, negb_involutive.
    destruct (whitespace_only field0); [apply IH|].
    unfold bind. rewrite execute_run. unfold verdict.
    destruct (oracle w) as [|[msg|] o] eqn:Ho; simpl.
    all: try done.
    all: match goal with
         | |- context [for_rows _ ?p' ?c' ?w'] =>
             specialize (IH p' c' w'); simpl in IH; by rewrite Ho in IH
         end.
Qed.

Lemma for_rows_returns reader :
  forall k c w c' w',
    for_rows reader (Z.of_nat k) c w = (Ok c', w') ->
    exists rows,
      reader = List.map Row rows /\
      trace w' = trace w ++ List.map Execute (inserts_from k rows) /\
      c' = c + Z.of_nat (length (inserts_from k rows)) /\
      working w' = foldl apply_statement (working w) (inserts_from k rows).
Proof.
  induction reader as [|item reader IH]; intros k c w c' w' H; simpl in H.
  - injection H as <- <-. exists []. simpl. rewrite app_nil_r. split; [done|].
    split; [done|]. split; [lia | done].
  - destruct item as [row|f]; [|done].
    replace (Z.of_nat k + 1) with (Z.of_nat (S k)) in H by lia.
    assert (Hskip : spec_tuple k row = None ->
              for_rows reader (Z.of_nat (S k)) c w = (Ok c', w') ->
              exists rows,
                Row row :: reader = List.map Row rows /\
                trace w' = trace w ++ List.map Execute (inserts_from k rows) /\
                c' = c + Z.of_nat (length (inserts_from k rows)) /\
                working w' =
                  foldl apply_statement (working w) (inserts_from k rows)).
    { intros Hnone H'. apply IH in H' as (rows & -> & Htr & -> & Hw).
      exists (row :: rows). rewrite inserts_from_cons, Hnone. done. }
    destruct row as [|field0 rest]; [by apply Hskip|].
    rewrite truthy_strip, negb_involutive in H.
    destruct (whitespace_only field0) eqn:Hblank;
      [apply Hskip; [simpl; by rewrite Hblank | done]|].
    unfold bind in H. rewrite execute_run in H.
    destruct (verdict w); [|done].
    apply IH in H as (rows & -> & Htr & -> & Hw).
    exists ((field0 :: rest) :: rows). rewrite inserts_from_cons. simpl.
    rewrite Hblank. simpl in *. rewrite Htr, <- app_assoc.
    split; [done|]. split; [done|]. split; [lia | done].
Qed.

(** The [try] block of the Loader against the failures of the
    specification. *)
Lemma load_try_failure fs w :
  match load_failure fs (oracle w) with
  | Some e =>
      fst (load_try fs w) = Raise e /\
      stored (snd (load_try fs w)) = stored w
  | None =>
      exists hdr rows,
        fs = csv_file hdr rows /\
        trace (snd (load_try fs w)) =
          trace w ++
          Open CSV_FILE :: List.map Execute (spec_inserts rows) ++
          [CloseFile; Commit] /\
        stored (snd (load_try fs w)) =
          foldl apply_statement (working w) (spec_inserts rows) /\
        txn (snd (load_try fs w)) = None /\
        (fst (load_try fs w) = Ok tt \/ fst (load_try fs w) = Raise OSError)
  end.
Proof.
  destruct fs as [| |[|[hdr|f] items]]; simpl; try done.
  pose proof (for_rows_failure items 0 0
                (set_trace (trace w ++ [Open CSV_FILE]) w)) as Hfail.
  simpl in Hfail.
  unfold load_try, with_open, open.
  unfold bind, try_finally, log, modify, ret, next. simpl.
  destruct (for_rows items 0 0 _) as [r1 w1] eqn:Hloop.
  pose proof Hloop as Hgen.
  apply for_rows_general in Hgen as [(Hst & _) _].
  simpl in *.
  destruct (rows_failure items (oracle w)) as [e|o].
  - rewrite Hfail. done.
  - destruct Hfail as [[count ->] <-].
    apply (for_rows_returns items 0) in Hloop as (rows & -> & Htr & _ & Hw).
    simpl in Htr. rewrite <- app_assoc in Htr. unfold working in Hw. simpl in Hw.
    rewrite commit_run. unfold verdict. simpl.
    destruct (oracle w1) as [|[msg|] o1] eqn:Ho; simpl; [|done|].
    all: exists hdr, rows; split; [done|].
    all: unfold print, working; simpl; destruct (verdict _); simpl.
    all: rewrite Htr, Hw, <- !app_assoc.
    all: repeat split; try done; first [by left | by right].
Qed.

(** ** The claims *)

(** C1. Every non-blank data row, taken with its zero-based index among the
    data rows, makes the Loader execute the insert of (trimmed first field,
    "post", index); the feed id is in the table afterwards, and with that
    entry when the id is new and no earlier row carries it. With data rows
    [f1], [f2], [f3] the inserts are (f1,"post",0), (f2,"post",1),
    (f3,"post",2), and on an empty table these are exactly the entries. *)
Theorem C1_loader_inserts_rows env hdr rows w :
  quiet (oracle w) = true ->
  let run := load_coldstart env (csv_file hdr rows) in
  fst (run w) = Ok tt /\
  (forall i field0 rest,
      rows !! i = Some (field0 :: rest) ->
      whitespace_only field0 = false ->
      INSERT_INTO_feed_coldstart (strip field0) (py "post") (Z.of_nat i)
        ∈ executed (calls run w) /\
      is_Some (stored (snd (run w)) !! strip field0) /\
      (stored w !! strip field0 = None ->
       (forall j g rest', (j < i)%nat -> rows !! j = Some (g :: rest') ->
                          whitespace_only g = false -> strip g <> strip field0) ->
       stored (snd (run w)) !! strip field0 = Some (post (Z.of_nat i)))) /\
  (rows = [[py "f1"]; [py "f2"]; [py "f3"]] ->
   executed (calls run w) =
     [INSERT_INTO_feed_coldstart (py "f1") (py "post") 0;
      INSERT_INTO_feed_coldstart (py "f2") (py "post") 1;
      INSERT_INTO_feed_coldstart (py "f3") (py "post") 2] /\
   (stored w = ∅ ->
    stored (snd (run w)) =
      list_to_map [(py "f1", post 0); (py "f2", post 1); (py "f3", post 2)])).
Proof.
  intros Hq run.
  destruct (load_coldstart_summary env hdr rows w Hq) as (Hok & Hl & _ & Hex).
  fold run in Hok, Hl, Hex. destruct Hl as (Hst & _).
  split; [exact Hok|]. split.
  - intros i f rest Hrow Hf.
    assert (Hin : INSERT_INTO_feed_coldstart (strip f) (py "post") (Z.of_nat i)
                    ∈ spec_inserts rows).
    { apply elem_of_inserts_from. by exists i, f, rest. }
    split; [by rewrite Hex|]. rewrite Hst. split.
    + eapply foldl_has_keys; [apply inserts_from_keys | exact Hin | done].
    + intros Hnew Hfirst.
      apply (lookup_after_inserts rows 0 (stored w) i f rest); done.
  - intros ->. rewrite Hex, Hst. split; [reflexivity|].
    intros ->. vm_compute. reflexivity.
Qed.

Lemma C1_witness :
  quiet (oracle fresh) = true /\
  stored (snd (load_coldstart ∅
                 (csv_file header [[py "f1"]; [py "f2"]; [py "f3"]]) fresh)) =
    list_to_map [(py "f1", post 0); (py "f2", post 1); (py "f3", post 2)].
Proof.
  split; [reflexivity|].
  apply (C1_loader_inserts_rows ∅ header [[py "f1"]; [py "f2"]; [py "f3"]]
           fresh eq_refl); reflexivity.
Defined.

(** C2. A data row that is empty, or whose first field is empty or white space
    only, is skipped: no insert carries its index and it is not counted, the
    reported count being the number of non-blank rows; every insert carries
    the index its row has among all data rows, blank ones included. For the
    data rows A, (empty), (two spaces), B the inserts are (A,"post",0) and
    (B,"post",3) and the count reported is 2. *)
Theorem C2_blank_rows_skipped env hdr rows w :
  quiet (oracle w) = true ->
  let run := load_coldstart env (csv_file hdr rows) in
  fst (run w) = Ok tt /\
  stdout (snd (run w)) =
    stdout w ++
    [report_loaded
       (Z.of_nat (length (List.filter (fun row => negb (blank_row row)) rows)))] /\
  (forall s, s ∈ executed (calls run w) ->
     exists i field0 rest,
       rows !! i = Some (field0 :: rest) /\ whitespace_only field0 = false /\
       s = INSERT_INTO_feed_coldstart (strip field0) (py "post") (Z.of_nat i)) /\
  (forall i row,
      rows !! i = Some row -> blank_row row = true ->
      forall fid ftype,
        INSERT_INTO_feed_coldstart fid ftype (Z.of_nat i)
          ∉ executed (calls run w)) /\
  (rows = [[py "A"]; []; [py "  "]; [py "B"]] ->
   executed (calls run w) =
     [INSERT_INTO_feed_coldstart (py "A") (py "post") 0;
      INSERT_INTO_feed_coldstart (py "B") (py "post") 3] /\
   stdout (snd (run w)) = stdout w ++ [report_loaded 2]).
Proof.
  intros Hq run.
  destruct (load_coldstart_summary env hdr rows w Hq) as (Hok & Hl & _ & Hex).
  fold run in Hok, Hl, Hex. destruct Hl as (_ & Hout & _).
  assert (Hfrom : forall s, s ∈ executed (calls run w) ->
     exists i field0 rest,
       rows !! i = Some (field0 :: rest) /\ whitespace_only field0 = false /\
       s = INSERT_INTO_feed_coldstart (strip field0) (py "post") (Z.of_nat i)).
  { intros s Hs. rewrite Hex in Hs. by apply elem_of_inserts_from in Hs. }
  split; [exact Hok|]. split; [|split; [exact Hfrom|split]].
  - rewrite Hout. unfold spec_inserts. by rewrite length_inserts_from.
  - intros i row Hrow Hblank fid ftype Hin.
    apply Hfrom in Hin as (j & f & rest & Hj & Hf & [= _ _ Hij]).
    apply Nat2Z.inj in Hij. subst j. rewrite Hrow in Hj. injection Hj as ->.
    simpl in Hblank. congruence.
  - intros ->. rewrite Hex, Hout. split; reflexivity.
Qed.

Lemma C2_witness :
  quiet (oracle fresh) = true /\
  executed (calls (load_coldstart ∅
                     (csv_file header [[py "A"]; []; [py "  "]; [py "B"]]))
              fresh) =
    [INSERT_INTO_feed_coldstart (py "A") (py "post") 0;
     INSERT_INTO_feed_coldstart (py "B") (py "post") 3] /\
  stdout (snd (load_coldstart ∅
                 (csv_file header [[py "A"]; []; [py "  "]; [py "B"]]) fresh)) =
    stdout fresh ++ [report_loaded 2].
Proof.
  split; [reflexivity|].
  apply (C2_blank_rows_skipped ∅ header [[py "A"]; []; [py "  "]; [py "B"]]
           fresh eq_refl); reflexivity.
Defined.

(** C3. An insert whose feed id is already in the table changes nothing and
    raises nothing: entries present before the run are the same after it.
    The count reported on success is the number of inserts attempted, which
    is the number of non-blank rows, whatever the table held; when every
    non-blank row's id is taken the table is unchanged while the count is
    still that number. *)
Theorem C3_conflicts_are_counted env hdr rows w :
  quiet (oracle w) = true ->
  let run := load_coldstart env (csv_file hdr rows) in
  fst (run w) = Ok tt /\
  (forall t fid ftype pos,
      is_Some (t !! fid) ->
      run_statement (INSERT_INTO_feed_coldstart fid ftype pos) t = (t, 0)) /\
  (forall fid e,
      stored w !! fid = Some e -> stored (snd (run w)) !! fid = Some e) /\
  stdout (snd (run w)) =
    stdout w ++ [report_loaded (Z.of_nat (length (executed (calls run w))))] /\
  length (executed (calls run w)) =
    length (List.filter (fun row => negb (blank_row row)) rows) /\
  (size (stored (snd (run w))) <=
     size (stored w) + length (executed (calls run w)))%nat /\
  ((forall i field0 rest,
       rows !! i = Some (field0 :: rest) -> whitespace_only field0 = false ->
       is_Some (stored w !! strip field0)) ->
   stored (snd (run w)) = stored w).
Proof.
  intros Hq run.
  destruct (load_coldstart_summary env hdr rows w Hq) as (Hok & Hl & _ & Hex).
  fold run in Hok, Hl, Hex. destruct Hl as (Hst & Hout & _).
  rewrite Hex, Hst, Hout.
  split; [exact Hok|]. split; [apply apply_conflict|].
  split; [|split; [done|split; [apply length_inserts_from|split]]].
  - intros fid e He. apply foldl_keeps; [apply inserts_from_keys | done].
  - apply size_foldl, inserts_from_keys.
  - intros Hall. apply foldl_conflicts. intros s Hs.
    apply elem_of_inserts_from in Hs as (i & f & rest & Hrow & Hf & ->).
    exists (strip f). split; [done|]. by eapply Hall.
Qed.

Lemma C3_witness :
  quiet (oracle (holding {[py "A" := post 7]})) = true /\
  stored (snd (load_coldstart ∅ (csv_file header [[py "A"]; [py " A "]])
                 (holding {[py "A" := post 7]}))) !! py "A" = Some (post 7) /\
  stdout (snd (load_coldstart ∅ (csv_file header [[py "A"]; [py " A "]])
                 (holding {[py "A" := post 7]}))) = [report_loaded 2].
Proof.
  split; [reflexivity|].
  pose proof (C3_conflicts_are_counted ∅ header [[py "A"]; [py " A "]]
                (holding {[py "A" := post 7]}) eq_refl) as (_ & _ & Hkeep & Hout & Hlen & _).
  split; [by apply Hkeep|].
  rewrite Hout, Hlen. reflexivity.
Defined.

(** C6. Loading the same file twice in a row: both runs succeed, every insert
    of the second run meets a feed id that is already in the table, and the
    table after the second run, and so its row count, is the table after the
    first. *)
Theorem C6_loading_twice env hdr rows w :
  quiet (oracle w) = true ->
  let run := load_coldstart env (csv_file hdr rows) in
  let w1 := snd (run w) in
  let w2 := snd (run w1) in
  fst (run w) = Ok tt /\ fst (run w1) = Ok tt /\
  (forall s, s ∈ executed (calls run w1) ->
     exists fid, key_of s = Some fid /\ is_Some (stored w1 !! fid)) /\
  stored w2 = stored w1 /\
  size (stored w2) = size (stored w1).
Proof.
  intros Hq run w1 w2.
  destruct (load_coldstart_summary env hdr rows w Hq) as (Hok & Hl & _ & _).
  fold run in Hok, Hl. fold w1 in Hl.
  destruct Hl as (Hst & _ & _ & _ & _ & _ & Hq1).
  destruct (load_coldstart_summary env hdr rows w1 Hq1) as (Hok1 & Hl1 & _ & Hex1).
  fold run in Hok1, Hl1, Hex1. fold w2 in Hl1. destruct Hl1 as (Hst1 & _).
  assert (Hall : forall s, s ∈ spec_inserts rows ->
            exists fid, key_of s = Some fid /\ is_Some (stored w1 !! fid)).
  { intros s Hs.
    destruct (Forall_forall (fun s => is_Some (key_of s)) (spec_inserts rows))
      as [Hk _].
    destruct (Hk (inserts_from_keys 0 rows) s Hs) as [fid Hfid].
    exists fid. split; [done|]. rewrite Hst.
    eapply foldl_has_keys; [apply inserts_from_keys | exact Hs | done]. }
  assert (Heq : stored w2 = stored w1).
  { rewrite Hst1. by apply foldl_conflicts. }
  rewrite Hex1, Heq. done.
Qed.

Lemma C6_witness :
  quiet (oracle fresh) = true /\
  stored (snd (load_coldstart ∅ (csv_file header [[py "A"]; []; [py "B"]])
            (snd (load_coldstart ∅ (csv_file header [[py "A"]; []; [py "B"]])
                    fresh)))) =
  stored (snd (load_coldstart ∅ (csv_file header [[py "A"]; []; [py "B"]])
                 fresh)).
Proof.
  split; [reflexivity|].
  apply (C6_loading_twice ∅ header [[py "A"]; []; [py "B"]] fresh eq_refl).
Defined.

(** C4 as it is worded fails in two ways. When the insert of B fails because
    the server is gone, [conn.rollback()] fails in turn and the error that
    reaches the caller is that of the rollback, not the one the [try] block
    raised. When the final [print] fails, the run raises with the inserts
    committed, so a failure of the run has not left the table unchanged. *)
Lemma C4_counterexample :
  ~ (forall e,
       fst (load_try (csv_file header [[py "A"]; [py "B"]])
              (snd (acquire ∅
                 (failing [None; None; None;
                           Some "server closed the connection"%string;
                           Some "connection already closed"%string] fresh))))
         = Raise e ->
       fst (load_coldstart ∅ (csv_file header [[py "A"]; [py "B"]])
              (failing [None; None; None;
                        Some "server closed the connection"%string;
                        Some "connection already closed"%string] fresh))
         = Raise e) /\
  ~ (forall e,
       fst (load_coldstart ∅ (csv_file header [[py "A"]])
              (failing [None; None; None; None; Some "broken pipe"%string]
                 fresh)) = Raise e ->
       stored (snd (load_coldstart ∅ (csv_file header [[py "A"]])
                      (failing [None; None; None; None;
                                Some "broken pipe"%string] fresh)))
         = stored (failing [None; None; None; None; Some "broken pipe"%string]
                     fresh)).
Proof.
  split.
  - intros H.
    specialize (H (Psycopg2Error "server closed the connection") eq_refl).
    vm_compute in H. discriminate.
  - intros H. specialize (H OSError eq_refl).
    apply (f_equal (fun t : table => t !! py "A")) in H.
    vm_compute in H. discriminate.
Qed.

(** C4, amended. Connection and cursor acquired, take the first failure among
    those the specification names: the file cannot be opened, it has no first
    row, a row cannot be read, an insert fails, the commit fails. If there is
    one, the run raises, the handler has called rollback, once and last
    before the closes, table and output are unchanged, and the error raised
    is that failure, unchanged, when rollback itself completes. If there is
    none, the file was read to its end, the one commit was made after the
    last insert and the table holds the effect of all the inserts of the
    file; the run then returns, or raises because the final [print] failed.
    So the table after a run is the table before it or the table with all
    the inserts of the file. *)
Theorem C4_commit_once_or_roll_back_amended env fs w :
  acquired env w = true ->
  let run := load_coldstart env fs in
  let w1 := snd (acquire env w) in
  match load_failure fs (oracle w1) with
  | Some e =>
      (exists e', fst (run w) = Raise e') /\
      (fst (rollback (snd (load_try fs w1))) = Ok tt -> fst (run w) = Raise e) /\
      stored (snd (run w)) = stored w /\
      stdout (snd (run w)) = stdout w /\
      exists cs,
        calls run w =
          [Connect (DB_CONFIG env); Cursor; Open CSV_FILE] ++ cs ++
          [Rollback; CursorClose; ConnectionClose] /\
        forallb (fun c => negb (is_rollback c)) cs = true
  | None =>
      exists hdr rows,
        fs = csv_file hdr rows /\
        stored (snd (run w)) =
          foldl apply_statement (stored w) (spec_inserts rows) /\
        ((fst (run w) = Ok tt /\
          calls run w =
            [Connect (DB_CONFIG env); Cursor; Open CSV_FILE] ++
            List.map Execute (spec_inserts rows) ++
            [CloseFile; Commit; CursorClose; ConnectionClose]) \/
         (fst (run w) = Raise OSError /\
          calls run w =
            [Connect (DB_CONFIG env); Cursor; Open CSV_FILE] ++
            List.map Execute (spec_inserts rows) ++
            [CloseFile; Commit; Rollback; CursorClose; ConnectionClose]))
  end.
Proof.
  intros Hacq run w1. subst run w1. unfold calls.
  apply acquired_run in Hacq as (w1 & Hacq & ->).
  rewrite load_coldstart_frame, Hacq.
  apply acquire_ok in Hacq as (Hst & Hout & Htxn & _ & _ & Htr & _).
  pose proof (load_try_failure fs w1) as Hfail.
  destruct (load_try fs w1) as [r w2] eqn:Htry. cbn [fst snd] in Hfail.
  destruct (load_failure fs (oracle w1)) as [e|].
  - destruct Hfail as [-> Hst2]. cbn [fst snd].
    apply load_try_general in Htry as (Hout2 & (cs & Htr2 & Hcs) & _).
    destruct (released_facts (rolled_back w2)) as (-> & -> & _ & _ & _ & -> & _).
    destruct (rolled_back_facts w2) as (-> & -> & -> & _).
    split; [apply handled_raises|]. split.
    { intros Hok. unfold handled. by rewrite Hok. }
    split; [congruence|]. split; [congruence|].
    exists cs. split; [|done]. rewrite Htr2, Htr, <- !app_assoc. simpl.
    by rewrite drop_app_length.
  - destruct Hfail as (hdr & rows & -> & Htr2 & Hst2 & Htxn2 & Hr).
    exists hdr, rows. split; [done|].
    unfold working in Hst2. rewrite Htxn, Hst in Hst2.
    destruct Hr as [->| ->]; cbn [fst snd].
    + destruct (released_facts w2) as (-> & _ & _ & _ & _ & -> & _).
      split; [done|]. left. split; [done|].
      rewrite Htr2, Htr, <- !app_assoc. simpl.
      by rewrite drop_app_length, <- app_assoc.
    + destruct (released_facts (rolled_back w2)) as (-> & _ & _ & _ & _ & -> & _).
      destruct (rolled_back_facts w2) as (-> & _ & -> & _).
      split; [done|]. right. split; [by apply handled_no_transaction|].
      rewrite Htr2, Htr, <- !app_assoc. simpl.
      by rewrite drop_app_length, <- !app_assoc.
Qed.

Lemma C4_witness :
  acquired ∅ (failing [None; None; None; Some "deadlock detected"%string] fresh)
    = true /\
  load_failure (csv_file header [[py "A"]; [py "B"]])
    (oracle (snd (acquire ∅
       (failing [None; None; None; Some "deadlock detected"%string] fresh))))
    = Some (Psycopg2Error "deadlock detected") /\
  fst (load_coldstart ∅ (csv_file header [[py "A"]; [py "B"]])
         (failing [None; None; None; Some "deadlock detected"%string] fresh))
    = Raise (Psycopg2Error "deadlock detected") /\
  stored (snd (load_coldstart ∅ (csv_file header [[py "A"]; [py "B"]])
         (failing [None; None; None; Some "deadlock detected"%string] fresh)))
    = ∅.
Proof.
  assert (Hfail : load_failure (csv_file header [[py "A"]; [py "B"]])
    (oracle (snd (acquire ∅
       (failing [None; None; None; Some "deadlock detected"%string] fresh))))
    = Some (Psycopg2Error "deadlock detected")) by (vm_compute; reflexivity).
  pose proof (C4_commit_once_or_roll_back_amended ∅
                (csv_file header [[py "A"]; [py "B"]])
                (failing [None; None; None; Some "deadlock detected"%string] fresh)
                eq_refl) as H.
  cbv zeta in H. rewrite Hfail in H. destruct H as (_ & Hraise & Hst & _).
  split; [reflexivity|]. split; [exact Hfail|].
  split; [apply Hraise; vm_compute; reflexivity | exact Hst].
Defined.

(** C5. The Eraser succeeds when no driver call fails. Whenever it succeeds it
    has executed the one unconditional delete and committed, the table holds
    no row, and the count it prints is the number of rows the table held
    before the run. *)
Theorem C5_eraser_empties_table env w :
  (quiet (oracle w) = true -> fst (delete_coldstart env w) = Ok tt) /\
  (fst (delete_coldstart env w) = Ok tt ->
   let w' := snd (delete_coldstart env w) in
   calls (delete_coldstart env) w =
     [Connect (DB_CONFIG env); Cursor; Execute DELETE_FROM_feed_coldstart;
      Commit; CursorClose; ConnectionClose] /\
   stored w' = ∅ /\ size (stored w') = 0%nat /\
   stdout w' = stdout w ++ [report_deleted (Z.of_nat (size (stored w)))]).
Proof.
  unfold calls. rewrite delete_coldstart_frame. split.
  - intros Hq. destruct (acquire_quiet env w Hq) as (w1 & -> & Hq1).
    unfold delete_try, bind.
    rewrite execute_run, (verdict_quiet _ Hq1).
    rewrite commit_run, verdict_quiet by (simpl; by apply quiet_tail).
    unfold cursor_rowcount.
    rewrite print_quiet by (simpl; by do 2 apply quiet_tail). done.
  - destruct (acquire env w) as [[[]|e] w1] eqn:Hacq; [|done].
    apply acquire_ok in Hacq as (Hst & Hout & Htxn & _ & _ & Htr & _).
    destruct (delete_try w1) as [[[]|e] w2] eqn:Htry;
      [|by intros ?%handled_not_ok].
    apply delete_try_general in Htry as (Htr2 & Hst2 & Hout2).
    intros _. cbn [fst snd].
    destruct (released_facts w2) as (-> & -> & _ & _ & _ & -> & _).
    unfold working in Hout2. rewrite Htxn, Hst, Hout in Hout2.
    rewrite Htr2, Htr, Hst2, Hout2, <- !app_assoc. simpl.
    by rewrite drop_app_length.
Qed.

Lemma C5_witness :
  fst (delete_coldstart ∅ (holding {[py "A" := post 0; py "B" := post 3]}))
    = Ok tt /\
  stored (snd (delete_coldstart ∅
                 (holding {[py "A" := post 0; py "B" := post 3]}))) = ∅ /\
  stdout (snd (delete_coldstart ∅
                 (holding {[py "A" := post 0; py "B" := post 3]})))
    = [report_deleted 2].
Proof.
  split; [reflexivity|].
  pose proof (C5_eraser_empties_table ∅
                (holding {[py "A" := post 0; py "B" := post 3]})) as [_ H].
  destruct (H eq_refl) as (_ & Hst & _ & Hout).
  split; [exact Hst|]. rewrite Hout. reflexivity.
Defined.

(** C7. The connection descriptor has the five fields host, port, dbname,
    user and password; each is the value of DATABASE_HOST, DATABASE_PORT,
    DATABASE_NAME, DATABASE_USERNAME, DATABASE_PASSWORD when the variable is
    set, taken as it is, and else the default 127.0.0.1, 5432, apen, postgres
    or the empty string. Both scripts connect with this descriptor. *)
Theorem C7_config_from_environment (env : environ) (w : world) (fs : file) :
  DB_CONFIG env =
    {| host := default (py "127.0.0.1") (env !! py "DATABASE_HOST");
       port := default (py "5432") (env !! py "DATABASE_PORT");
       dbname := default (py "apen") (env !! py "DATABASE_NAME");
       user := default (py "postgres") (env !! py "DATABASE_USERNAME");
       password := default [] (env !! py "DATABASE_PASSWORD") |} /\
  DB_CONFIG ∅ =
    {| host := py "127.0.0.1"; port := py "5432"; dbname := py "apen";
       user := py "postgres"; password := [] |} /\
  (forall h p d u pw,
      DB_CONFIG (<[py "DATABASE_HOST" := h]>
                 (<[py "DATABASE_PORT" := p]>
                  (<[py "DATABASE_NAME" := d]>
                   (<[py "DATABASE_USERNAME" := u]>
                    (<[py "DATABASE_PASSWORD" := pw]> env))))) =
      {| host := h; port := p; dbname := d; user := u; password := pw |}) /\
  head (calls (delete_coldstart env) w) = Some (Connect (DB_CONFIG env)) /\
  head (calls (load_coldstart env fs) w) = Some (Connect (DB_CONFIG env)).
Proof.
  split; [|split; [reflexivity|split; [|split]]].
  - unfold DB_CONFIG, getenv.
    by destruct (env !! py "DATABASE_HOST"), (env !! py "DATABASE_PORT"),
      (env !! py "DATABASE_NAME"), (env !! py "DATABASE_USERNAME"),
      (env !! py "DATABASE_PASSWORD").
  - intros h p d u pw. unfold DB_CONFIG, getenv.
    rewrite lookup_insert_eq.
    rewrite lookup_insert_ne, lookup_insert_eq by done.
    do 2 rewrite lookup_insert_ne by done. rewrite lookup_insert_eq.
    do 3 rewrite lookup_insert_ne by done. rewrite lookup_insert_eq.
    do 4 rewrite lookup_insert_ne by done. rewrite lookup_insert_eq.
    done.
  - eapply framed_first_call; [apply delete_coldstart_frame | apply delete_try_trace].
  - eapply framed_first_call; [apply load_coldstart_frame | apply load_try_trace].
Qed.

(** C8. Once connection and cursor have been acquired, the Eraser and the
    Loader end, whether they return or raise, with the cursor closed and the
    connection closed, these two being their last calls. *)
Theorem C8_cursor_and_connection_released env fs w :
  acquired env w = true ->
  (cur_open (snd (load_coldstart env fs w)) = false /\
   conn_open (snd (load_coldstart env fs w)) = false /\
   exists cs, calls (load_coldstart env fs) w =
                cs ++ [CursorClose; ConnectionClose]) /\
  (cur_open (snd (delete_coldstart env w)) = false /\
   conn_open (snd (delete_coldstart env w)) = false /\
   exists cs, calls (delete_coldstart env) w =
                cs ++ [CursorClose; ConnectionClose]).
Proof.
  intros Hacq. apply acquired_run in Hacq as (w1 & Hacq & _).
  unfold calls. rewrite load_coldstart_frame, delete_coldstart_frame, Hacq.
  apply acquire_ok in Hacq as (_ & _ & _ & _ & _ & Htr & _).
  split.
  - destruct (load_try fs w1) as [[[]|e] w2] eqn:Htry;
      apply load_try_general in Htry; cbn [fst snd].
    + destruct Htry as (ss & Htr2 & _).
      destruct (released_facts w2) as (_ & _ & _ & -> & -> & -> & _).
      do 2 (split; [done|]). rewrite Htr2, Htr, <- !app_assoc.
      rewrite drop_app_length.
      exists ([Connect (DB_CONFIG env); Cursor; Open CSV_FILE] ++
              List.map Execute ss ++ [CloseFile; Commit]).
      simpl. by rewrite <- ?app_assoc.
    + destruct Htry as (_ & (cs & Htr2 & _) & _).
      destruct (released_facts (rolled_back w2)) as (_ & _ & _ & -> & -> & -> & _).
      destruct (rolled_back_facts w2) as (_ & _ & -> & _).
      do 2 (split; [done|]). rewrite Htr2, Htr, <- !app_assoc.
      rewrite drop_app_length.
      exists ([Connect (DB_CONFIG env); Cursor; Open CSV_FILE] ++ cs ++ [Rollback]).
      simpl. by rewrite <- ?app_assoc.
  - destruct (delete_try w1) as [[[]|e] w2] eqn:Htry;
      apply delete_try_general in Htry; cbn [fst snd].
    + destruct Htry as (Htr2 & _).
      destruct (released_facts w2) as (_ & _ & _ & -> & -> & -> & _).
      do 2 (split; [done|]). rewrite Htr2, Htr, <- !app_assoc.
      rewrite drop_app_length. by eexists [_; _; _; _].
    + destruct Htry as (_ & (cs & Htr2 & _) & _).
      destruct (released_facts (rolled_back w2)) as (_ & _ & _ & -> & -> & -> & _).
      destruct (rolled_back_facts w2) as (_ & _ & -> & _).
      do 2 (split; [done|]). rewrite Htr2, Htr, <- !app_assoc.
      rewrite drop_app_length.
      exists ([Connect (DB_CONFIG env); Cursor] ++ cs ++ [Rollback]).
      simpl. by rewrite <- ?app_assoc.
Qed.

Lemma C8_witness :
  acquired ∅ (failing [None; None; Some "server closed the connection"%string]
                (holding {[py "A" := post 0]})) = true /\
  conn_open (snd (load_coldstart ∅ (csv_file header [[py "B"]])
                    (failing [None; None;
                              Some "server closed the connection"%string]
                       (holding {[py "A" := post 0]})))) = false /\
  conn_open (snd (delete_coldstart ∅
                    (failing [None; None;
                              Some "server closed the connection"%string]
                       (holding {[py "A" := post 0]})))) = false.
Proof.
  split; [reflexivity|].
  pose proof (C8_cursor_and_connection_released ∅ (csv_file header [[py "B"]])
                (failing [None; None; Some "server closed the connection"%string]
                   (holding {[py "A" := post 0]})) eq_refl)
    as ((_ & Hload & _) & (_ & Hdelete & _)).
  split; [exact Hload | exact Hdelete].
Defined.

(** C9 as it is worded fails: with [coldstart.csv] missing the Loader does
    raise the file error and does release cursor and connection, but it has
    called rollback. *)
Lemma C9_counterexample :
  ~ (fst (load_coldstart ∅ Missing fresh) = Raise FileNotFoundError /\
     forallb (fun c => negb (is_rollback c))
       (calls (load_coldstart ∅ Missing) fresh) = true /\
     cur_open (snd (load_coldstart ∅ Missing fresh)) = false /\
     conn_open (snd (load_coldstart ∅ Missing fresh)) = false).
Proof. intros (_ & Hno_rollback & _). vm_compute in Hno_rollback. discriminate. Qed.

(** C9, amended. When [coldstart.csv] is absent or unreadable and connection
    and cursor have been acquired, the Loader raises the file-access error
    [open] raised; the handler of the [try] block has caught it, called
    rollback, with no statement executed before, and raised it again; the
    table is unchanged, and cursor and connection are closed. *)
Theorem C9_file_access_error env fs e w :
  acquired env w = true ->
  access_error fs = Some e ->
  fst (load_coldstart env fs w) = Raise e /\
  calls (load_coldstart env fs) w =
    [Connect (DB_CONFIG env); Cursor; Open CSV_FILE;
     Rollback; CursorClose; ConnectionClose] /\
  stored (snd (load_coldstart env fs w)) = stored w /\
  cur_open (snd (load_coldstart env fs w)) = false /\
  conn_open (snd (load_coldstart env fs w)) = false.
Proof.
  intros Hacq Hfs. apply acquired_run in Hacq as (w1 & Hacq & _).
  unfold calls. rewrite load_coldstart_frame, Hacq.
  apply acquire_ok in Hacq as (Hst & _ & Htxn & _ & _ & Htr & _).
  assert (Htry : load_try fs w1 =
                 (Raise e, set_trace (trace w1 ++ [Open CSV_FILE]) w1)).
  { destruct fs; simpl in Hfs; [| |done]; by injection Hfs as <-. }
  rewrite Htry. cbn [fst snd]. rewrite handled_no_transaction by done.
  destruct (released_facts (rolled_back (set_trace (trace w1 ++ [Open CSV_FILE]) w1)))
    as (-> & _ & _ & -> & -> & -> & _).
  destruct (rolled_back_facts (set_trace (trace w1 ++ [Open CSV_FILE]) w1))
    as (-> & _ & -> & _).
  simpl. rewrite Htr, Hst, <- !app_assoc. simpl. by rewrite drop_app_length.
Qed.

Lemma C9_witness :
  acquired ∅ (holding {[py "A" := post 0]}) = true /\
  access_error Forbidden = Some PermissionError /\
  fst (load_coldstart ∅ Forbidden (holding {[py "A" := post 0]}))
    = Raise PermissionError /\
  calls (load_coldstart ∅ Forbidden) (holding {[py "A" := post 0]}) =
    [Connect (DB_CONFIG ∅); Cursor; Open CSV_FILE;
     Rollback; CursorClose; ConnectionClose].
Proof.
  split; [reflexivity|]. split; [reflexivity|].
  pose proof (C9_file_access_error ∅ Forbidden PermissionError
                (holding {[py "A" := post 0]}) eq_refl eq_refl)
    as (Hraise & Hcalls & _).
  split; [exact Hraise | exact Hcalls].
Defined.

(** C10. On a file with no row at all, not even a header, the Loader does not
    return: skipping the header raises StopIteration, the handler rolls back
    and raises it again; nothing is executed or committed, no count is
    printed, and the table is unchanged. *)
Theorem C10_empty_file_fails env w :
  acquired env w = true ->
  fst (load_coldstart env (Readable []) w) = Raise StopIteration /\
  calls (load_coldstart env (Readable [])) w =
    [Connect (DB_CONFIG env); Cursor; Open CSV_FILE; CloseFile;
     Rollback; CursorClose; ConnectionClose] /\
  stored (snd (load_coldstart env (Readable []) w)) = stored w /\
  stdout (snd (load_coldstart env (Readable []) w)) = stdout w.
Proof.
  intros Hacq. apply acquired_run in Hacq as (w1 & Hacq & _).
  unfold calls. rewrite load_coldstart_frame, Hacq.
  apply acquire_ok in Hacq as (Hst & Hout & Htxn & _ & _ & Htr & _).
  assert (Htry : load_try (Readable []) w1 =
                 (Raise StopIteration,
                  set_trace ((trace w1 ++ [Open CSV_FILE]) ++ [CloseFile]) w1))
    by done.
  rewrite Htry. cbn [fst snd]. rewrite handled_no_transaction by done.
  destruct (released_facts
              (rolled_back
                 (set_trace ((trace w1 ++ [Open CSV_FILE]) ++ [CloseFile]) w1)))
    as (-> & -> & _ & _ & _ & -> & _).
  destruct (rolled_back_facts
              (set_trace ((trace w1 ++ [Open CSV_FILE]) ++ [CloseFile]) w1))
    as (-> & -> & -> & _).
  simpl. rewrite Htr, Hst, Hout, <- !app_assoc. simpl.
  by rewrite drop_app_length.
Qed.

Lemma C10_witness :
  acquired ∅ (holding {[py "A" := post 0]}) = true /\
  fst (load_coldstart ∅ (Readable []) (holding {[py "A" := post 0]}))
    = Raise StopIteration /\
  stored (snd (load_coldstart ∅ (Readable []) (holding {[py "A" := post 0]})))
    = {[py "A" := post 0]}.
Proof.
  split; [reflexivity|].
  pose proof (C10_empty_file_fails ∅ (holding {[py "A" := post 0]}) eq_refl)
    as (Hraise & _ & Hst & _).
  split; [exact Hraise | exact Hst].
Defined.

(** * Further properties *)

(** ** Trimming *)

Lemma lstrip_snoc (s : str) c :
  is_space c = false -> lstrip (s ++ [c]) = lstrip s ++ [c].
Proof.
  intros Hc. induction s as [|d s IH]; simpl; [by rewrite Hc|].
  by destruct (is_space d).
Qed.

Lemma lstrip_idem (s : str) : lstrip (lstrip s) = lstrip s.
Proof.
  destruct (lstrip s) as [|c s'] eqn:Hs; [done|].
  apply lstrip_head in Hs. simpl. by rewrite Hs.
Qed.

Lemma rstrip_cons (c : char) (s : str) :
  is_space c = false -> rstrip (c :: s) = c :: rstrip s.
Proof.
  intros Hc. unfold rstrip. simpl.
  rewrite lstrip_snoc by done. by rewrite rev_app_distr.
Qed.

Lemma strip_idem (s : str) : strip (strip s) = strip s.
Proof.
  unfold strip.
  destruct (lstrip s) as [|c a] eqn:Ha; [done|].
  apply lstrip_head in Ha.
  rewrite !rstrip_cons by done. simpl. rewrite Ha.
  rewrite rstrip_cons by done. f_equal.
  unfold rstrip. by rewrite rev_involutive, lstrip_idem.
Qed.

Lemma strip_head (s : str) c : head (strip s) = Some c -> is_space c = false.
Proof.
  unfold strip. destruct (lstrip s) as [|d a] eqn:Ha; [done|].
  apply lstrip_head in Ha. rewrite rstrip_cons by done.
  by intros [= <-].
Qed.

Lemma strip_last (s : str) c : last (strip s) = Some c -> is_space c = false.
Proof.
  unfold strip, rstrip.
  destruct (lstrip (rev (lstrip s))) as [|d a] eqn:Ha; [done|].
  apply lstrip_head in Ha. simpl. rewrite last_snoc. by intros [= <-].
Qed.

Lemma whitespace_only_strip (s : str) :
  whitespace_only (strip s) = whitespace_only s.
Proof.
  pose proof (truthy_strip s) as H. pose proof (truthy_strip (strip s)) as H'.
  rewrite strip_idem in H'. rewrite H in H'.
  by destruct (whitespace_only s), (whitespace_only (strip s)).
Qed.

(** ** Where the statements of the Loader come from, whatever fails *)

Lemma insert_of_row_later item items p s :
  insert_of_row items (p + 1) s -> insert_of_row (item :: items) p s.
Proof.
  intros (i & f & rest & Hi & Hf & ->). exists (S i), f, rest.
  repeat split; [done..|]. f_equal. lia.
Qed.

Lemma for_rows_origin reader :
  forall p c w r w',
    for_rows reader p c w = (r, w') ->
    exists ss,
      trace w' = trace w ++ List.map Execute ss /\
      (forall s, s ∈ ss -> insert_of_row reader p s) /\
      (forall c', r = Ok c' ->
         working w' = foldl apply_statement (working w) ss).
Proof.
  induction reader as [|item reader IH]; intros p c w r w' H; simpl in H.
  - injection H as <- <-. exists []. simpl. rewrite app_nil_r.
    split; [done|]. split; [|done]. intros s Hs. by apply elem_of_nil in Hs.
  - destruct item as [row|f].
    + assert (Hskip : for_rows reader (p + 1) c w = (r, w') ->
        exists ss,
          trace w' = trace w ++ List.map Execute ss /\
          (forall s, s ∈ ss -> insert_of_row (Row row :: reader) p s) /\
          (forall c', r = Ok c' ->
             working w' = foldl apply_statement (working w) ss)).
      { intros H'. apply IH in H' as (ss & Htr & Hfrom & Hok). exists ss.
        split; [done|]. split; [|done].
        intros s Hs. by apply insert_of_row_later, Hfrom. }
      destruct row as [|field0 rest]; [by apply Hskip|].
      rewrite truthy_strip, negb_involutive in H.
      destruct (whitespace_only field0) eqn:Hblank; [by apply Hskip|].
      unfold bind in H. rewrite execute_run in H.
      destruct (verdict w).
      * apply IH in H as (ss & Htr & Hfrom & Hok).
        eexists (_ :: ss). simpl in *. rewrite Htr, <- app_assoc.
        split; [done|]. split; [|done].
        intros s [->|Hs]%elem_of_cons.
        -- exists 0%nat, field0, rest. repeat split; [done|]. f_equal. lia.
        -- by apply insert_of_row_later, Hfrom.
      * injection H as <- <-.
        exists [INSERT_INTO_feed_coldstart (strip field0) (py "post") p].
        simpl. split; [done|]. split; [|done].
        intros s ->%list_elem_of_singleton.
        exists 0%nat, field0, rest. repeat split; [done|]. f_equal. lia.
    + injection H as <- <-. exists []. simpl. rewrite app_nil_r.
      split; [done|]. split; [|done]. intros s Hs. by apply elem_of_nil in Hs.
Qed.

Lemma executed_drop_app (tr cs : list call) :
  executed (drop (length tr) (tr ++ cs)) = executed cs.
Proof. by rewrite drop_app_length. Qed.

(** The [try] block of the Loader: the statements it executes and what it
    leaves in the table, for every file and every script of driver faults. *)
Lemma load_try_origin fs w r w' :
  load_try fs w = (r, w') ->
  exists ss cs,
    trace w' = trace w ++ cs /\ executed cs = ss /\
    (forall s, s ∈ ss -> insert_of_row (data_items fs) 0 s) /\
    match r with
    | Ok _ => stored w' = foldl apply_statement (working w) ss
    | Raise _ =>
        stored w' = stored w \/
        stored w' = foldl apply_statement (working w) ss
    end.
Proof.
  unfold load_try, with_open, open.
  destruct fs as [| |items].
  - intros [= <- <-]. exists [], [Open CSV_FILE]. simpl.
    repeat split; [|by left]. intros s Hs. by apply elem_of_nil in Hs.
  - intros [= <- <-]. exists [], [Open CSV_FILE]. simpl.
    repeat split; [|by left]. intros s Hs. by apply elem_of_nil in Hs.
  - destruct items as [|[hdr|f] reader].
    + intros [= <- <-]. exists [], [Open CSV_FILE; CloseFile]. simpl.
      rewrite <- app_assoc. repeat split; [|by left].
      intros s Hs. by apply elem_of_nil in Hs.
    + unfold bind, try_finally, log, modify, ret, next. simpl.
      destruct (for_rows reader 0 0 _) as [r1 w1] eqn:Hloop.
      pose proof Hloop as Hgen.
      apply for_rows_general in Hgen as [(Hst & _) _].
      apply for_rows_origin in Hloop as (ss & Htr & Hfrom & Hok).
      unfold working in *. simpl in *.
      destruct r1 as [count|e].
      * specialize (Hok _ eq_refl). rewrite commit_run.
        destruct (verdict _).
        -- unfold print. destruct (verdict _); intros [= <- <-].
           all: exists ss,
                  (Open CSV_FILE :: List.map Execute ss ++ [CloseFile; Commit]).
           all: unfold working; simpl; rewrite Htr, Hok, <- !app_assoc.
           all: rewrite executed_app, executed_executes; simpl.
           all: rewrite app_nil_r; repeat split; try done; by right.
        -- intros [= <- <-].
           exists ss, (Open CSV_FILE :: List.map Execute ss ++ [CloseFile; Commit]).
           simpl. rewrite Htr, Hst, <- !app_assoc.
           rewrite executed_app, executed_executes. simpl.
           rewrite app_nil_r. repeat split; try done. by left.
      * intros [= <- <-].
        exists ss, (Open CSV_FILE :: List.map Execute ss ++ [CloseFile]).
        simpl. rewrite Htr, Hst, <- !app_assoc.
        rewrite executed_app, executed_executes. simpl.
        rewrite app_nil_r. repeat split; try done. by left.
    + intros [= <- <-]. exists [], [Open CSV_FILE; CloseFile]. simpl.
      rewrite <- app_assoc. repeat split; [|by left].
      intros s Hs. by apply elem_of_nil in Hs.
Qed.

(** The same for the whole script. *)
Lemma load_coldstart_origin env fs w :
  exists ss,
    executed (calls (load_coldstart env fs) w) = ss /\
    (forall s, s ∈ ss -> insert_of_row (data_items fs) 0 s) /\
    match fst (load_coldstart env fs w) with
    | Ok _ =>
        stored (snd (load_coldstart env fs w)) =
          foldl apply_statement (stored w) ss
    | Raise _ =>
        stored (snd (load_coldstart env fs w)) = stored w \/
        stored (snd (load_coldstart env fs w)) =
          foldl apply_statement (stored w) ss
    end.
Proof.
  unfold calls. rewrite load_coldstart_frame.
  destruct (acquire env w) as [[[]|e] w1] eqn:Hacq.
  - apply acquire_ok in Hacq as (Hst & _ & Htxn & _ & _ & Htr & _).
    destruct (load_try fs w1) as [r w2] eqn:Htry.
    apply load_try_origin in Htry as (ss & cs & Htr2 & Hex & Hfrom & Hres).
    unfold working in Hres. rewrite Htxn, Hst in Hres.
    exists ss. destruct r as [[]|e]; cbn [fst snd].
    + destruct (released_facts w2) as (-> & _ & _ & _ & _ & -> & _).
      rewrite Htr2, Htr, <- !app_assoc, executed_drop_app.
      rewrite !executed_app, Hex. simpl. by rewrite app_nil_r.
    + destruct (@handled_raises unit e w2) as [e' ->].
      destruct (released_facts (rolled_back w2)) as (-> & _ & _ & _ & _ & -> & _).
      destruct (rolled_back_facts w2) as (-> & _ & -> & _).
      rewrite Htr2, Htr, <- !app_assoc, executed_drop_app.
      rewrite !executed_app, Hex. simpl. by rewrite app_nil_r.
  - exists []. cbn [fst snd].
    split; [|split; [intros s Hs; by apply elem_of_nil in Hs|]].
    + revert Hacq. rewrite acquire_run. destruct (verdict w).
      * rewrite cursor_run. destruct (verdict _); [done|].
        intros [= _ <-]. simpl. rewrite <- app_assoc.
        by rewrite drop_app_length.
      * intros [= _ <-]. simpl. by rewrite drop_app_length.
    + left. by apply acquire_fail in Hacq as (Hst & _).
Qed.

Lemma load_coldstart_table env fs w :
  exists ss,
    (forall s, s ∈ ss -> insert_of_row (data_items fs) 0 s) /\
    (stored (snd (load_coldstart env fs w)) = stored w \/
     stored (snd (load_coldstart env fs w)) =
       foldl apply_statement (stored w) ss).
Proof.
  destruct (load_coldstart_origin env fs w) as (ss & _ & Hfrom & Hres).
  exists ss. split; [done|].
  destruct (fst (load_coldstart env fs w)); [by right | done].
Qed.

Lemma insert_of_row_bound items s :
  insert_of_row items 0 s ->
  exists i field0 rest,
    items !! i = Some (Row (field0 :: rest)) /\
    whitespace_only field0 = false /\
    s = INSERT_INTO_feed_coldstart (strip field0) (py "post") (Z.of_nat i) /\
    (i < length items)%nat.
Proof.
  intros (i & f & rest & Hi & Hf & ->). exists i, f, rest.
  repeat split; [done..|]. by eapply lookup_lt_Some.
Qed.

Lemma inserts_of_rows_keys items p ss :
  (forall s, s ∈ ss -> insert_of_row items p s) ->
  Forall (fun s => is_Some (key_of s)) ss.
Proof.
  intros H. apply Forall_forall. intros s Hs.
  destruct (H s Hs) as (i & f & rest & _ & _ & ->). by eexists.
Qed.

(** An entry found after a fold of inserts was there before, or comes from the
    first statement that carries its key. *)
Lemma foldl_lookup_origin ss :
  forall t fid e,
    Forall (fun s => is_Some (key_of s)) ss ->
    foldl apply_statement t ss !! fid = Some e ->
    t !! fid = Some e \/
    (t !! fid = None /\
     INSERT_INTO_feed_coldstart fid (feed_type e) (position e) ∈ ss).
Proof.
  induction ss as [|s ss IH]; intros t fid e Hall He; [by left|].
  apply Forall_cons in Hall as [Hs Hall]. simpl in He.
  apply IH in He; [|done]. destruct He as [He|[Hnone Hin]].
  - destruct s as [|k ftype pos]; [by destruct Hs|].
    unfold apply_statement in He. simpl in He.
    destruct (t !! k) eqn:Hk; simpl in He; [by left|].
    destruct (decide (k = fid)) as [->|Hne].
    + rewrite lookup_insert_eq in He. injection He as <-.
      right. split; [done|]. by left.
    + rewrite lookup_insert_ne in He by done. by left.
  - right. split; [|by right].
    destruct (t !! fid) as [e0|] eqn:Ht; [|done].
    by rewrite (apply_keeps t s fid e0 Hs Ht) in Hnone.
Qed.

(** X1. Whatever the file and whatever fails, a statement the Loader executes
    is the insert of a non-blank row read after the first one: that row's
    trimmed first field, "post", and the row's zero-based index, which is
    below the number of rows read after the first. *)
Theorem loader_executes_only_row_inserts env fs w s :
  s ∈ executed (calls (load_coldstart env fs) w) ->
  exists i field0 rest,
    data_items fs !! i = Some (Row (field0 :: rest)) /\
    whitespace_only field0 = false /\
    s = INSERT_INTO_feed_coldstart (strip field0) (py "post") (Z.of_nat i) /\
    (i < length (data_items fs))%nat.
Proof.
  destruct (load_coldstart_origin env fs w) as (ss & -> & Hfrom & _).
  intros Hs. by apply insert_of_row_bound, Hfrom.
Qed.

Lemma loader_executes_only_row_inserts_witness :
  INSERT_INTO_feed_coldstart (py "B") (py "post") 2
    ∈ executed (calls (load_coldstart ∅
         (Readable [Row header; Row [py "A"]; Row []; Row [py " B"; py "video"];
                    Bad Malformed; Row [py "C"]]))
         (failing [None; None; None; Some "timeout"%string] fresh)) /\
  exists i field0 rest,
    [Row [py "A"]; Row []; Row [py " B"; py "video"]; Bad Malformed; Row [py "C"]]
      !! i = Some (Row (field0 :: rest)) /\
    whitespace_only field0 = false /\
    INSERT_INTO_feed_coldstart (py "B") (py "post") 2 =
      INSERT_INTO_feed_coldstart (strip field0) (py "post") (Z.of_nat i) /\
    (i < 5)%nat.
Proof.
  assert (Hin : INSERT_INTO_feed_coldstart (py "B") (py "post") 2
    ∈ executed (calls (load_coldstart ∅
         (Readable [Row header; Row [py "A"]; Row []; Row [py " B"; py "video"];
                    Bad Malformed; Row [py "C"]]))
         (failing [None; None; None; Some "timeout"%string] fresh))).
  { vm_compute. apply list_elem_of_In. right. left. reflexivity. }
  split; [exact Hin|].
  exact (loader_executes_only_row_inserts _ _ _ _ Hin).
Defined.

(** X2. Whatever the file and whatever fails, the feed id of a statement the
    Loader executes is not empty and has no white space at either end. *)
Theorem loader_feed_ids_are_trimmed env fs w fid ftype pos :
  INSERT_INTO_feed_coldstart fid ftype pos
    ∈ executed (calls (load_coldstart env fs) w) ->
  fid <> [] /\ strip fid = fid /\
  (forall c, head fid = Some c -> is_space c = false) /\
  (forall c, last fid = Some c -> is_space c = false).
Proof.
  destruct (load_coldstart_origin env fs w) as (ss & -> & Hfrom & _).
  intros Hs. destruct (Hfrom _ Hs) as (i & f & rest & _ & Hf & [= -> _ _]).
  split; [|split; [apply strip_idem|split]].
  - intros Hnil. apply strip_nil_iff in Hnil. congruence.
  - apply strip_head.
  - apply strip_last.
Qed.

Lemma loader_feed_ids_are_trimmed_witness :
  INSERT_INTO_feed_coldstart (py "B") (py "post") 2
    ∈ executed (calls (load_coldstart ∅
         (csv_file header [[py "A"]; []; [py " B  "; py "video"]])) fresh) /\
  py "B" <> [] /\ strip (py "B") = py "B".
Proof.
  assert (Hin : INSERT_INTO_feed_coldstart (py "B") (py "post") 2
    ∈ executed (calls (load_coldstart ∅
         (csv_file header [[py "A"]; []; [py " B  "; py "video"]])) fresh)).
  { vm_compute. apply list_elem_of_In. right. left. reflexivity. }
  split; [exact Hin|].
  destruct (loader_feed_ids_are_trimmed _ _ _ _ _ _ Hin) as (H1 & H2 & _).
  split; [exact H1 | exact H2].
Defined.

(** X3. The Loader never removes or overwrites an entry: whatever the file
    and whatever fails, whether it returns or raises, an entry the table held
    before the run is there, unchanged, after it. *)
Theorem loader_keeps_existing_entries env fs w fid e :
  stored w !! fid = Some e ->
  stored (snd (load_coldstart env fs w)) !! fid = Some e.
Proof.
  intros He.
  destruct (load_coldstart_table env fs w) as (ss & Hfrom & [-> | ->]); [done|].
  apply foldl_keeps; [|done]. by eapply inserts_of_rows_keys.
Qed.

Lemma loader_keeps_existing_entries_witness :
  stored (holding {[py "A" := post 7]}) !! py "A" = Some (post 7) /\
  stored (snd (load_coldstart ∅ (csv_file header [[py "B"]; [py "A"]])
                 (holding {[py "A" := post 7]}))) !! py "A" = Some (post 7).
Proof.
  split; [reflexivity|].
  apply (loader_keeps_existing_entries ∅ (csv_file header [[py "B"]; [py "A"]])
           (holding {[py "A" := post 7]}) (py "A") (post 7)).
  reflexivity.
Defined.

(** X4. Whatever the file and whatever fails, an entry of the table after a
    run of the Loader is an entry the table held before, or a new one whose
    type is "post", whose position is a row index of the file, and whose feed
    id is not empty and trimmed. *)
Theorem loader_table_entries env fs w fid e :
  stored (snd (load_coldstart env fs w)) !! fid = Some e ->
  stored w !! fid = Some e \/
  (stored w !! fid = None /\
   feed_type e = py "post" /\
   0 <= position e < Z.of_nat (length (data_items fs)) /\
   fid <> [] /\ strip fid = fid).
Proof.
  destruct (load_coldstart_table env fs w) as (ss & Hfrom & [-> | ->]);
    [by left|].
  intros He.
  apply foldl_lookup_origin in He; [|by eapply inserts_of_rows_keys].
  destruct He as [He|[Hnone Hin]]; [by left|].
  right. split; [done|].
  apply Hfrom, insert_of_row_bound in Hin
    as (i & f & rest & _ & Hf & [= -> -> ->] & Hi).
  split; [done|]. split; [lia|]. split; [|apply strip_idem].
  intros Hnil. apply strip_nil_iff in Hnil. congruence.
Qed.

Lemma loader_table_entries_witness :
  stored (snd (load_coldstart ∅ (csv_file header [[py "B"]; [py "A"]])
                 (holding {[py "A" := post 7]}))) !! py "B" = Some (post 0) /\
  (stored (holding {[py "A" := post 7]}) !! py "B" = Some (post 0) \/
   (stored (holding {[py "A" := post 7]}) !! py "B" = None /\
    feed_type (post 0) = py "post" /\
    0 <= position (post 0) < 2 /\
    py "B" <> [] /\ strip (py "B") = py "B")).
Proof.
  split; [reflexivity|].
  apply (loader_table_entries ∅ (csv_file header [[py "B"]; [py "A"]])
           (holding {[py "A" := post 7]}) (py "B") (post 0)).
  reflexivity.
Defined.

(** ** Runs that return *)

Lemma load_try_returns fs w w' :
  load_try fs w = (Ok tt, w') ->
  exists hdr rows,
    fs = csv_file hdr rows /\
    trace w' =
      trace w ++
      Open CSV_FILE :: List.map Execute (spec_inserts rows) ++ [CloseFile; Commit] /\
    stdout w' =
      stdout w ++ [report_loaded (Z.of_nat (length (spec_inserts rows)))].
Proof.
  unfold load_try, with_open, open.
  destruct fs as [| |items]; [done..|].
  destruct items as [|[hdr|f] reader]; [done| |done].
  unfold bind, try_finally, log, modify, ret, next. simpl.
  destruct (for_rows reader 0 0 _) as [[count|e] w1] eqn:Hloop; [|done].
  pose proof Hloop as Hgen.
  apply for_rows_general in Hgen as [(_ & Hout & _) _].
  apply (for_rows_returns reader 0) in Hloop as (rows & -> & Htr & -> & _).
  rewrite commit_run. destruct (verdict _); [|done].
  unfold print. destruct (verdict _); [|done].
  intros [= <-]. exists hdr, rows. simpl in *.
  rewrite Htr, Hout, <- !app_assoc. done.
Qed.

Lemma load_coldstart_returns env fs w w' :
  load_coldstart env fs w = (Ok tt, w') ->
  exists hdr rows,
    fs = csv_file hdr rows /\
    trace w' =
      trace w ++
      [Connect (DB_CONFIG env); Cursor; Open CSV_FILE] ++
      List.map Execute (spec_inserts rows) ++
      [CloseFile; Commit; CursorClose; ConnectionClose] /\
    stored w' = foldl apply_statement (stored w) (spec_inserts rows) /\
    stdout w' =
      stdout w ++ [report_loaded (Z.of_nat (length (spec_inserts rows)))].
Proof.
  rewrite load_coldstart_frame.
  destruct (acquire env w) as [[[]|e] w1] eqn:Hacq; [|done].
  apply acquire_ok in Hacq as (Hst & Hout & Htxn & _ & _ & Htr & _).
  destruct (load_try fs w1) as [[[]|e] w2] eqn:Htry;
    [|by intros [= ?%handled_not_ok]].
  pose proof Htry as Hgen.
  apply load_try_general in Hgen as (ss & Htr3 & Hst3 & _).
  apply load_try_returns in Htry as (hdr & rows & -> & Htr2 & Hout2).
  assert (ss = spec_inserts rows) as ->.
  { rewrite Htr2 in Htr3. apply app_inv_head in Htr3.
    injection Htr3 as Htr3. apply app_inv_tail in Htr3.
    rewrite <- (executed_executes ss), <- Htr3. by rewrite executed_executes. }
  intros [= <-]. exists hdr, rows. split; [done|].
  destruct (released_facts w2) as (-> & -> & _ & _ & _ & -> & _).
  unfold working in Hst3. rewrite Htxn, Hst in Hst3.
  rewrite Htr2, Htr, Hst3, Hout2, Hout, <- !app_assoc. simpl.
  by rewrite <- !app_assoc.
Qed.

Lemma csv_file_inj hdr hdr' rows rows' :
  csv_file hdr rows = csv_file hdr' rows' -> hdr = hdr' /\ rows = rows'.
Proof.
  intros [= -> Hrows]. split; [done|].
  revert rows' Hrows.
  induction rows as [|r rows IH]; intros [|r' rows']; simpl; try done.
  intros [= -> H]. f_equal. by apply IH.
Qed.

(** X5. The Loader returns only when the file could be read to its end: a
    run that returns, whatever the driver's script, had a file made of a first
    row and then rows only; its statements are the inserts of the non-blank
    rows, in file order, all of them are in effect in the table, and the
    count printed is the number of non-blank rows. *)
Theorem loader_returns_only_on_whole_file env fs w :
  fst (load_coldstart env fs w) = Ok tt ->
  exists hdr rows,
    fs = csv_file hdr rows /\
    executed (calls (load_coldstart env fs) w) = spec_inserts rows /\
    stored (snd (load_coldstart env fs w)) =
      foldl apply_statement (stored w) (spec_inserts rows) /\
    stdout (snd (load_coldstart env fs w)) =
      stdout w ++
      [report_loaded
         (Z.of_nat (length (List.filter (fun row => negb (blank_row row)) rows)))].
Proof.
  unfold calls.
  destruct (load_coldstart env fs w) as [r w'] eqn:Hrun. cbn [fst snd].
  intros ->.
  apply load_coldstart_returns in Hrun as (hdr & rows & -> & Htr & Hst & Hout).
  exists hdr, rows. split; [done|].
  rewrite Htr, Hst, Hout, executed_drop_app, !executed_app, executed_executes.
  simpl. rewrite app_nil_r. unfold spec_inserts.
  by rewrite length_inserts_from.
Qed.

Lemma loader_returns_only_on_whole_file_witness :
  fst (load_coldstart ∅ (csv_file header [[py "A"]; []; [py "B"]])
         (failing [None; None; None; None; None; None; Some "late"%string]
            fresh))
    = Ok tt /\
  exists hdr rows,
    csv_file header [[py "A"]; []; [py "B"]] = csv_file hdr rows /\
    executed (calls (load_coldstart ∅ (csv_file header [[py "A"]; []; [py "B"]]))
                (failing [None; None; None; None; None; None; Some "late"%string]
            fresh))
      = spec_inserts rows.
Proof.
  split; [reflexivity|].
  destruct (loader_returns_only_on_whole_file ∅
              (csv_file header [[py "A"]; []; [py "B"]])
              (failing [None; None; None; None; None; None; Some "late"%string]
            fresh)
              eq_refl) as (hdr & rows & Hfs & Hex & _).
  by exists hdr, rows.
Defined.

(** ** The feed ids of the table after a load *)

Lemma dom_apply t s fid :
  key_of s = Some fid -> dom (apply_statement t s) = {[fid]} ∪ dom t.
Proof.
  destruct s as [|k ftype pos]; [done|]. intros [= ->].
  unfold apply_statement. simpl.
  destruct (t !! fid) eqn:Ht; simpl.
  - apply (elem_of_dom_2 (D := gset str)) in Ht.
    apply set_eq. intros x. rewrite elem_of_union, elem_of_singleton.
    split; [by right | by intros [->|?]].
  - by rewrite dom_insert_L.
Qed.

Lemma dom_foldl ss :
  forall t fid,
    Forall (fun s => is_Some (key_of s)) ss ->
    fid ∈ dom (foldl apply_statement t ss) <->
    fid ∈ dom t \/ exists s, s ∈ ss /\ key_of s = Some fid.
Proof.
  induction ss as [|s ss IH]; intros t fid Hall; simpl.
  - split; [by left|]. intros [H|(s & Hs & _)]; [done|].
    by apply elem_of_nil in Hs.
  - apply Forall_cons in Hall as [[k Hk] Hall].
    rewrite IH by done. rewrite (dom_apply t s k Hk). split.
    + intros [[->%elem_of_singleton|H]%elem_of_union|(s' & Hs' & Hk')].
      * right. exists s. split; [by left | done].
      * by left.
      * right. exists s'. split; [by right | done].
    + intros [H|(s' & [->|Hs']%elem_of_cons & Hk')].
      * left. apply elem_of_union. by right.
      * left. rewrite Hk in Hk'. injection Hk' as ->.
        apply elem_of_union. left. by apply elem_of_singleton.
      * right. by exists s'.
Qed.

(** X6. After a run of the Loader that returns, the feed ids of the table are
    those it held before together with the trimmed first fields of the
    non-blank rows of the file. *)
Theorem loader_feed_ids_after_load env hdr rows w fid :
  fst (load_coldstart env (csv_file hdr rows) w) = Ok tt ->
  (is_Some (stored (snd (load_coldstart env (csv_file hdr rows) w)) !! fid) <->
   is_Some (stored w !! fid) \/
   exists i field0 rest,
     rows !! i = Some (field0 :: rest) /\ whitespace_only field0 = false /\
     fid = strip field0).
Proof.
  destruct (load_coldstart env (csv_file hdr rows) w) as [r w'] eqn:Hrun.
  cbn [fst snd]. intros ->.
  apply load_coldstart_returns in Hrun as (hdr' & rows' & Hfs & _ & Hst & _).
  apply csv_file_inj in Hfs as [_ <-].
  rewrite Hst, <- !elem_of_dom, dom_foldl by apply inserts_from_keys.
  split; (intros [H|H]; [by left|right]).
  - destruct H as (s & Hs & Hk).
    apply elem_of_inserts_from in Hs as (i & f & rest & Hrow & Hf & ->).
    injection Hk as <-. by exists i, f, rest.
  - destruct H as (i & f & rest & Hrow & Hf & ->).
    exists (INSERT_INTO_feed_coldstart (strip f) (py "post") (Z.of_nat (0 + i))).
    split; [|done]. apply elem_of_inserts_from. by exists i, f, rest.
Qed.

Lemma loader_feed_ids_after_load_witness :
  fst (load_coldstart ∅ (csv_file header [[py " B "]; []; [py "C"; py "x"]])
         (holding {[py "A" := post 7]})) = Ok tt /\
  (is_Some (stored (snd (load_coldstart ∅
              (csv_file header [[py " B "]; []; [py "C"; py "x"]])
              (holding {[py "A" := post 7]}))) !! py "B") <->
   is_Some (stored (holding {[py "A" := post 7]}) !! py "B") \/
   exists i field0 rest,
     [[py " B "]; []; [py "C"; py "x"]] !! i = Some (field0 :: rest) /\
     whitespace_only field0 = false /\ py "B" = strip field0).
Proof.
  split; [reflexivity|].
  apply (loader_feed_ids_after_load ∅ header [[py " B "]; []; [py "C"; py "x"]]
           (holding {[py "A" := post 7]}) (py "B") eq_refl).
Defined.

(** ** The Eraser when something fails *)

Lemma delete_try_failure w :
  match delete_failure (oracle w) with
  | Some e =>
      fst (delete_try w) = Raise e /\
      stored (snd (delete_try w)) = stored w /\
      stdout (snd (delete_try w)) = stdout w /\
      (trace (snd (delete_try w)) =
         trace w ++ [Execute DELETE_FROM_feed_coldstart] \/
       trace (snd (delete_try w)) =
         trace w ++ [Execute DELETE_FROM_feed_coldstart; Commit])
  | None =>
      stored (snd (delete_try w)) = ∅ /\
      txn (snd (delete_try w)) = None /\
      trace (snd (delete_try w)) =
        trace w ++ [Execute DELETE_FROM_feed_coldstart; Commit] /\
      ((fst (delete_try w) = Ok tt /\
        stdout (snd (delete_try w)) =
          stdout w ++ [report_deleted (Z.of_nat (size (working w)))]) \/
       (fst (delete_try w) = Raise OSError /\
        stdout (snd (delete_try w)) = stdout w))
  end.
Proof.
  unfold delete_failure, delete_try, execute, begin, commit, cursor_rowcount,
    print, log, consult, modify, bind, verdict, working.
  simpl.
  destruct (oracle w) as [|[m1|] [|[m2|] [|[m3|] o]]]; simpl.
  all: rewrite <- ?app_assoc; repeat split; try done.
  all: first [by left | by right].
Qed.

(** X7. The Eraser is all or nothing. Connection and cursor acquired, if the
    delete or the commit fails the run raises, the handler having called
    rollback, with table and output unchanged, and the error raised is that
    failure, unchanged, when rollback itself completes. If both complete the
    table is empty, and the run returns with the count printed, or raises
    because the final [print] failed. So the table after a run is the table
    before it or the empty table. *)
Theorem eraser_all_or_nothing env w :
  acquired env w = true ->
  let run := delete_coldstart env in
  let w1 := snd (acquire env w) in
  match delete_failure (oracle w1) with
  | Some e =>
      (exists e', fst (run w) = Raise e') /\
      (fst (rollback (snd (delete_try w1))) = Ok tt -> fst (run w) = Raise e) /\
      stored (snd (run w)) = stored w /\
      stdout (snd (run w)) = stdout w /\
      (calls run w =
         [Connect (DB_CONFIG env); Cursor;
          Execute DELETE_FROM_feed_coldstart;
          Rollback; CursorClose; ConnectionClose] \/
       calls run w =
         [Connect (DB_CONFIG env); Cursor;
          Execute DELETE_FROM_feed_coldstart; Commit;
          Rollback; CursorClose; ConnectionClose])
  | None =>
      stored (snd (run w)) = ∅ /\
      ((fst (run w) = Ok tt /\
        stdout (snd (run w)) =
          stdout w ++ [report_deleted (Z.of_nat (size (stored w)))] /\
        calls run w =
          [Connect (DB_CONFIG env); Cursor;
           Execute DELETE_FROM_feed_coldstart; Commit;
           CursorClose; ConnectionClose]) \/
       (fst (run w) = Raise OSError /\
        stdout (snd (run w)) = stdout w /\
        calls run w =
          [Connect (DB_CONFIG env); Cursor;
           Execute DELETE_FROM_feed_coldstart; Commit;
           Rollback; CursorClose; ConnectionClose]))
  end.
Proof.
  intros Hacq run w1. subst run w1. unfold calls.
  apply acquired_run in Hacq as (w1 & Hacq & ->).
  rewrite delete_coldstart_frame, Hacq.
  apply acquire_ok in Hacq as (Hst & Hout & Htxn & _ & _ & Htr & _).
  pose proof (delete_try_failure w1) as Hfail.
  destruct (delete_try w1) as [r w2] eqn:Htry. cbn [fst snd] in Hfail.
  destruct (delete_failure (oracle w1)) as [e|].
  - destruct Hfail as (-> & Hst2 & Hout2 & Htr2). cbn [fst snd].
    destruct (released_facts (rolled_back w2)) as (-> & -> & _ & _ & _ & -> & _).
    destruct (rolled_back_facts w2) as (-> & -> & -> & _).
    split; [apply handled_raises|]. split.
    { intros Hok. unfold handled. by rewrite Hok. }
    split; [congruence|]. split; [congruence|].
    destruct Htr2 as [-> | ->]; [left | right].
    all: rewrite Htr, <- !app_assoc; simpl; by rewrite drop_app_length.
  - destruct Hfail as (Hst2 & Htxn2 & Htr2 & Hr).
    unfold working in Hr. rewrite Htxn, Hst in Hr.
    destruct Hr as [[-> Hout2] | [-> Hout2]]; cbn [fst snd].
    + destruct (released_facts w2) as (-> & -> & _ & _ & _ & -> & _).
      split; [done|]. left. split; [done|]. split; [congruence|].
      rewrite Htr2, Htr, <- !app_assoc. simpl. by rewrite drop_app_length.
    + destruct (released_facts (rolled_back w2)) as (-> & -> & _ & _ & _ & -> & _).
      destruct (rolled_back_facts w2) as (-> & -> & -> & _).
      split; [done|]. right. split; [by apply handled_no_transaction|].
      split; [congruence|].
      rewrite Htr2, Htr, <- !app_assoc. simpl. by rewrite drop_app_length.
Qed.

Lemma eraser_all_or_nothing_witness :
  acquired ∅ (failing [None; None; None; Some "disk full"%string]
                (holding {[py "A" := post 0; py "B" := post 1]})) = true /\
  delete_failure
    (oracle (snd (acquire ∅
       (failing [None; None; None; Some "disk full"%string]
          (holding {[py "A" := post 0; py "B" := post 1]}))))) =
    Some (Psycopg2Error "disk full") /\
  fst (delete_coldstart ∅
         (failing [None; None; None; Some "disk full"%string]
            (holding {[py "A" := post 0; py "B" := post 1]})))
    = Raise (Psycopg2Error "disk full") /\
  stored (snd (delete_coldstart ∅
         (failing [None; None; None; Some "disk full"%string]
            (holding {[py "A" := post 0; py "B" := post 1]}))))
    = {[py "A" := post 0; py "B" := post 1]}.
Proof.
  assert (Hfail : delete_failure
    (oracle (snd (acquire ∅
       (failing [None; None; None; Some "disk full"%string]
          (holding {[py "A" := post 0; py "B" := post 1]}))))) =
    Some (Psycopg2Error "disk full")) by (vm_compute; reflexivity).
  pose proof (eraser_all_or_nothing ∅
                (failing [None; None; None; Some "disk full"%string]
                   (holding {[py "A" := post 0; py "B" := post 1]})) eq_refl)
    as H.
  cbv zeta in H. rewrite Hfail in H. destruct H as (_ & Hraise & Hst & _).
  split; [reflexivity|]. split; [exact Hfail|].
  split; [apply Hraise; vm_compute; reflexivity | exact Hst].
Defined.

(** ** Failures before the [try] *)

(** X8. When the connection cannot be made, either script raises the
    driver's error having called nothing else: no cursor, no file opened, no
    statement, no rollback, no close; table and output are untouched. *)
Theorem connection_failure_stops_everything env fs w msg :
  head (oracle w) = Some (Some msg) ->
  (fst (load_coldstart env fs w) = Raise (Psycopg2Error msg) /\
   calls (load_coldstart env fs) w = [Connect (DB_CONFIG env)] /\
   stored (snd (load_coldstart env fs w)) = stored w /\
   stdout (snd (load_coldstart env fs w)) = stdout w) /\
  (fst (delete_coldstart env w) = Raise (Psycopg2Error msg) /\
   calls (delete_coldstart env) w = [Connect (DB_CONFIG env)] /\
   stored (snd (delete_coldstart env w)) = stored w /\
   stdout (snd (delete_coldstart env w)) = stdout w).
Proof.
  intros Hfail. unfold calls.
  rewrite load_coldstart_frame, delete_coldstart_frame, acquire_run.
  unfold verdict. rewrite Hfail. simpl. by rewrite drop_app_length.
Qed.

Lemma connection_failure_stops_everything_witness :
  head (oracle (failing [Some "could not connect to server"%string]
                  (holding {[py "A" := post 0]})))
    = Some (Some "could not connect to server"%string) /\
  calls (load_coldstart ∅ (csv_file header [[py "B"]]))
    (failing [Some "could not connect to server"%string]
       (holding {[py "A" := post 0]})) = [Connect (DB_CONFIG ∅)] /\
  calls (delete_coldstart ∅)
    (failing [Some "could not connect to server"%string]
       (holding {[py "A" := post 0]})) = [Connect (DB_CONFIG ∅)].
Proof.
  split; [reflexivity|].
  pose proof (connection_failure_stops_everything ∅ (csv_file header [[py "B"]])
                (failing [Some "could not connect to server"%string]
                   (holding {[py "A" := post 0]}))
                "could not connect to server"%string eq_refl)
    as ((_ & Hload & _) & (_ & Hdelete & _)).
  split; [exact Hload | exact Hdelete].
Defined.

(** X9. The cursor is acquired before the [try]: when the connection is made
    and [conn.cursor()] raises, either script raises that error with the
    connection still open; neither rollback nor close is called, and the
    table is untouched. *)
Theorem cursor_failure_leaves_connection_open env fs w msg o :
  oracle w = None :: Some msg :: o ->
  (fst (load_coldstart env fs w) = Raise (Psycopg2Error msg) /\
   calls (load_coldstart env fs) w = [Connect (DB_CONFIG env); Cursor] /\
   conn_open (snd (load_coldstart env fs w)) = true /\
   stored (snd (load_coldstart env fs w)) = stored w) /\
  (fst (delete_coldstart env w) = Raise (Psycopg2Error msg) /\
   calls (delete_coldstart env) w = [Connect (DB_CONFIG env); Cursor] /\
   conn_open (snd (delete_coldstart env w)) = true /\
   stored (snd (delete_coldstart env w)) = stored w).
Proof.
  intros Ho. unfold calls.
  rewrite load_coldstart_frame, delete_coldstart_frame, acquire_run.
  unfold verdict at 1. rewrite Ho. simpl.
  rewrite cursor_run. unfold verdict. simpl. rewrite Ho. simpl.
  rewrite <- app_assoc. by rewrite drop_app_length.
Qed.

Lemma cursor_failure_leaves_connection_open_witness :
  oracle (failing [None; Some "connection already closed"%string] fresh)
    = [None; Some "connection already closed"%string] /\
  conn_open (snd (load_coldstart ∅ Missing
                    (failing [None; Some "connection already closed"%string]
                       fresh))) = true /\
  conn_open (snd (delete_coldstart ∅
                    (failing [None; Some "connection already closed"%string]
                       fresh))) = true.
Proof.
  split; [reflexivity|].
  pose proof (cursor_failure_leaves_connection_open ∅ Missing
                (failing [None; Some "connection already closed"%string] fresh)
                "connection already closed"%string [] eq_refl)
    as ((_ & _ & Hload & _) & (_ & _ & Hdelete & _)).
  split; [exact Hload | exact Hdelete].
Defined.

(** ** What in the file the Loader does not look at *)

Lemma load_coldstart_same_loop env hdr hdr' rows rows' w :
  (forall w1, for_rows (List.map Row rows) 0 0 w1 =
              for_rows (List.map Row rows') 0 0 w1) ->
  load_coldstart env (csv_file hdr rows) w =
  load_coldstart env (csv_file hdr' rows') w.
Proof.
  intros Hloop. rewrite !load_coldstart_frame.
  destruct (acquire env w) as [[[]|e] w1]; [|done].
  assert (Htry : load_try (csv_file hdr rows) w1 =
                 load_try (csv_file hdr' rows') w1).
  { unfold load_try, csv_file, with_open, open.
    unfold bind, try_finally, log, modify, ret, next. simpl.
    by rewrite Hloop. }
  by rewrite Htry.
Qed.

Lemma for_rows_first_column rows :
  forall p c w,
    for_rows (List.map Row rows) p c w =
    for_rows (List.map Row (List.map (take 1) rows)) p c w.
Proof.
  induction rows as [|row rows IH]; intros p c w; [done|].
  destruct row as [|field0 rest]; simpl; [apply IH|].
  destruct (negb (truthy (strip field0))); [apply IH|].
  unfold bind. destruct (execute _ w) as [[[]|e] w1]; [apply IH | done].
Qed.

Lemma for_rows_trim_first rows :
  forall p c w,
    for_rows (List.map Row rows) p c w =
    for_rows (List.map Row (List.map trim_first rows)) p c w.
Proof.
  induction rows as [|row rows IH]; intros p c w; [done|].
  destruct row as [|field0 rest]; simpl; [apply IH|].
  rewrite strip_idem.
  destruct (negb (truthy (strip field0))); [apply IH|].
  unfold bind. destruct (execute _ w) as [[[]|e] w1]; [apply IH | done].
Qed.

Lemma for_rows_blank_tail rows blanks :
  forallb blank_row blanks = true ->
  forall p c w,
    for_rows (List.map Row (rows ++ blanks)) p c w =
    for_rows (List.map Row rows) p c w.
Proof.
  intros Hblank. induction rows as [|row rows IH]; intros p c w.
  - simpl. revert p. induction blanks as [|b blanks IHb]; intros p; [done|].
    simpl in Hblank. apply andb_prop in Hblank as [Hb Hblank].
    destruct b as [|field0 rest]; simpl; [by apply IHb|].
    simpl in Hb. rewrite truthy_strip, Hb. simpl. by apply IHb.
  - destruct row as [|field0 rest]; simpl; [apply IH|].
    destruct (negb (truthy (strip field0))); [apply IH|].
    unfold bind. destruct (execute _ w) as [[[]|e] w1]; [apply IH | done].
Qed.

(** X10. The Loader looks at the first field of each data row only: the
    content of the first row of the file and the fields after the first of
    every other row change nothing, in any world: same outcome, same calls,
    same table, same output. *)
Theorem loader_reads_first_column_only env hdr hdr' rows w :
  load_coldstart env (csv_file hdr rows) w =
  load_coldstart env (csv_file hdr' (List.map (take 1) rows)) w.
Proof.
  apply load_coldstart_same_loop. intros w1. apply for_rows_first_column.
Qed.

(** X11. White space around the first field changes nothing: the run over a
    file is the run over the file with every first field trimmed. *)
Theorem loader_ignores_surrounding_white_space env hdr rows w :
  load_coldstart env (csv_file hdr rows) w =
  load_coldstart env (csv_file hdr (List.map trim_first rows)) w.
Proof.
  apply load_coldstart_same_loop. intros w1. apply for_rows_trim_first.
Qed.

(** X12. Blank rows at the end of the file change nothing. *)
Theorem loader_ignores_trailing_blank_rows env hdr rows blanks w :
  forallb blank_row blanks = true ->
  load_coldstart env (csv_file hdr (rows ++ blanks)) w =
  load_coldstart env (csv_file hdr rows) w.
Proof.
  intros Hblank. apply load_coldstart_same_loop. intros w1.
  by apply for_rows_blank_tail.
Qed.

Lemma loader_ignores_trailing_blank_rows_witness :
  forallb blank_row [[]; [py "  "; py "post"]; []] = true /\
  load_coldstart ∅
    (csv_file header ([[py "A"]; [py "B"]] ++ [[]; [py "  "; py "post"]; []]))
    fresh =
  load_coldstart ∅ (csv_file header [[py "A"]; [py "B"]]) fresh.
Proof.
  split; [reflexivity|].
  apply (loader_ignores_trailing_blank_rows ∅ header [[py "A"]; [py "B"]]
           [[]; [py "  "; py "post"]; []] fresh eq_refl).
Defined.

(** ** A file that fails midway, a file without data *)

Lemma for_rows_until_bad rows f rest :
  forall k c w,
    quiet (oracle w) = true ->
    exists w',
      for_rows (List.map Row rows ++ Bad f :: rest) (Z.of_nat k) c w =
        (Raise (read_exn f), w') /\
      trace w' = trace w ++ List.map Execute (inserts_from k rows) /\
      same_session w w' /\
      quiet (oracle w') = true.
Proof.
  induction rows as [|row rows IH]; intros k c w Hq.
  - exists w. simpl. rewrite app_nil_r. done.
  - rewrite inserts_from_cons. simpl.
    replace (Z.of_nat k + 1) with (Z.of_nat (S k)) by lia.
    destruct row as [|field0 rest0]; simpl; [by apply IH|].
    rewrite truthy_strip.
    destruct (whitespace_only field0); simpl; [by apply IH|].
    unfold bind. rewrite execute_run, (verdict_quiet _ Hq).
    edestruct (IH (S k) (c + 1)) as (w' & Hrun & Htr & Hs & Hq'); last first.
    + exists w'. rewrite Hrun. split; [done|].
      split; [rewrite Htr; simpl; by rewrite <- app_assoc|].
      split; [exact Hs | exact Hq'].
    + simpl. by apply quiet_tail.
Qed.

Lemma load_try_until_bad hdr rows f rest w :
  quiet (oracle w) = true ->
  exists w',
    load_try (Readable (Row hdr :: List.map Row rows ++ Bad f :: rest)) w =
      (Raise (read_exn f), w') /\
    trace w' =
      trace w ++ Open CSV_FILE :: List.map Execute (spec_inserts rows) ++ [CloseFile] /\
    stored w' = stored w /\ stdout w' = stdout w /\
    quiet (oracle w') = true.
Proof.
  intros Hq. unfold load_try, with_open, open.
  unfold bind, try_finally, log, modify, ret, next. simpl.
  destruct (for_rows_until_bad rows f rest 0 0
              (set_trace (trace w ++ [Open CSV_FILE]) w) Hq)
    as (w1 & Hrun & Htr & (Hst & Hout & _) & Hq1).
  change (Z.of_nat 0) with 0 in Hrun. rewrite Hrun. simpl in *.
  eexists. split; [reflexivity|]. simpl.
  rewrite Htr, Hst, Hout, <- !app_assoc. done.
Qed.

(** X13. When reading fails at some row and no driver call does, the Loader
    raises the reader's error; the inserts of the rows before it have been
    executed and are rolled back, no commit is attempted, what follows the
    bad row is never looked at, and table and output are as before. *)
Theorem loader_read_failure_midway env hdr rows f rest w :
  quiet (oracle w) = true ->
  let fs := Readable (Row hdr :: List.map Row rows ++ Bad f :: rest) in
  fst (load_coldstart env fs w) = Raise (read_exn f) /\
  calls (load_coldstart env fs) w =
    [Connect (DB_CONFIG env); Cursor; Open CSV_FILE] ++
    List.map Execute (spec_inserts rows) ++
    [CloseFile; Rollback; CursorClose; ConnectionClose] /\
  stored (snd (load_coldstart env fs w)) = stored w /\
  stdout (snd (load_coldstart env fs w)) = stdout w.
Proof.
  intros Hq fs. subst fs. unfold calls. rewrite load_coldstart_frame.
  destruct (acquire_quiet env w Hq) as (w1 & Hacq & Hq1). rewrite Hacq.
  apply acquire_ok in Hacq as (Hst & Hout & _ & _ & _ & Htr & _).
  destruct (load_try_until_bad hdr rows f rest w1 Hq1)
    as (w2 & Hrun & Htr2 & Hst2 & Hout2 & Hq2).
  rewrite Hrun. cbn [fst snd]. rewrite handled_quiet by done.
  destruct (released_facts (rolled_back w2)) as (-> & -> & _ & _ & _ & -> & _).
  destruct (rolled_back_facts w2) as (-> & -> & -> & _).
  rewrite Htr2, Hst2, Hout2, Htr, Hst, Hout, <- !app_assoc. simpl.
  rewrite drop_app_length, <- !app_assoc. done.
Qed.

Lemma loader_read_failure_midway_witness :
  quiet (oracle (holding {[py "A" := post 0]})) = true /\
  fst (load_coldstart ∅
         (Readable (Row header :: List.map Row [[py "B"]; []; [py "C"]] ++
                    Bad Undecodable :: [Row [py "D"]]))
         (holding {[py "A" := post 0]})) = Raise UnicodeDecodeError /\
  stored (snd (load_coldstart ∅
         (Readable (Row header :: List.map Row [[py "B"]; []; [py "C"]] ++
                    Bad Undecodable :: [Row [py "D"]]))
         (holding {[py "A" := post 0]}))) = {[py "A" := post 0]}.
Proof.
  split; [reflexivity|].
  pose proof (loader_read_failure_midway ∅ header [[py "B"]; []; [py "C"]]
                Undecodable [Row [py "D"]] (holding {[py "A" := post 0]}) eq_refl)
    as (Hraise & _ & Hst & _).
  split; [exact Hraise | exact Hst].
Defined.

Lemma inserts_from_blank rows :
  forallb blank_row rows = true -> forall k, inserts_from k rows = [].
Proof.
  induction rows as [|row rows IH]; intros Hblank k; [done|].
  simpl in Hblank. apply andb_prop in Hblank as [Hb Hblank].
  rewrite inserts_from_cons.
  apply (spec_tuple_None k) in Hb. rewrite Hb. by apply IH.
Qed.

(** X14. A file with a first row and no data, or blank data rows only, is
    loaded with success when no driver call fails: nothing is executed, the
    commit is still made, the table is unchanged and the count printed
    is 0. *)
Theorem loader_on_file_without_data env hdr rows w :
  quiet (oracle w) = true ->
  forallb blank_row rows = true ->
  fst (load_coldstart env (csv_file hdr rows) w) = Ok tt /\
  calls (load_coldstart env (csv_file hdr rows)) w =
    [Connect (DB_CONFIG env); Cursor; Open CSV_FILE; CloseFile; Commit;
     CursorClose; ConnectionClose] /\
  stored (snd (load_coldstart env (csv_file hdr rows) w)) = stored w /\
  stdout (snd (load_coldstart env (csv_file hdr rows) w)) =
    stdout w ++ [report_loaded 0].
Proof.
  intros Hq Hblank.
  destruct (load_coldstart_summary env hdr rows w Hq) as (Hok & Hl & Hcalls & _).
  destruct Hl as (Hst & Hout & _).
  unfold spec_inserts in *. rewrite (inserts_from_blank rows Hblank 0) in *.
  done.
Qed.

Lemma loader_on_file_without_data_witness :
  quiet (oracle (holding {[py "A" := post 0]})) = true /\
  forallb blank_row [[]; [py " "]] = true /\
  stdout (snd (load_coldstart ∅ (csv_file header [[]; [py " "]])
                 (holding {[py "A" := post 0]}))) = [report_loaded 0].
Proof.
  split; [reflexivity|]. split; [reflexivity|].
  apply (loader_on_file_without_data ∅ header [[]; [py " "]]
           (holding {[py "A" := post 0]}) eq_refl eq_refl).
Defined.

(** ** The two scripts one after the other *)

Lemma delete_coldstart_quiet env w :
  quiet (oracle w) = true ->
  exists w',
    delete_coldstart env w = (Ok tt, w') /\
    stored w' = ∅ /\
    stdout w' = stdout w ++ [report_deleted (Z.of_nat (size (stored w)))] /\
    quiet (oracle w') = true.
Proof.
  intros Hq. rewrite delete_coldstart_frame.
  destruct (acquire_quiet env w Hq) as (w1 & Hacq & Hq1). rewrite Hacq.
  apply acquire_ok in Hacq as (Hst & Hout & Htxn & _ & _ & _ & _).
  assert (Htry : exists w2,
            delete_try w1 = (Ok tt, w2) /\ quiet (oracle w2) = true).
  { unfold delete_try, bind.
    rewrite execute_run, (verdict_quiet _ Hq1).
    rewrite commit_run, verdict_quiet by (simpl; by apply quiet_tail).
    unfold cursor_rowcount.
    rewrite print_quiet by (simpl; by do 2 apply quiet_tail).
    eexists. split; [reflexivity|]. simpl. by do 3 apply quiet_tail. }
  destruct Htry as (w2 & Htry & Hq2). rewrite Htry.
  eexists. split; [reflexivity|].
  apply delete_try_general in Htry as (_ & Hst2 & Hout2).
  destruct (released_facts w2) as (-> & -> & _ & _ & _ & _ & ->).
  unfold working in Hout2. rewrite Htxn, Hst, Hout in Hout2. done.
Qed.

(** X15. Running the Eraser twice in a row, no driver call failing: both runs
    return, the first prints the number of rows the table held, the second
    prints 0, and the table is empty. *)
Theorem eraser_twice env w :
  quiet (oracle w) = true ->
  let w1 := snd (delete_coldstart env w) in
  let w2 := snd (delete_coldstart env w1) in
  fst (delete_coldstart env w) = Ok tt /\
  fst (delete_coldstart env w1) = Ok tt /\
  stored w2 = ∅ /\
  stdout w2 =
    stdout w ++
    [report_deleted (Z.of_nat (size (stored w))); report_deleted 0].
Proof.
  intros Hq w1 w2. subst w1 w2.
  destruct (delete_coldstart_quiet env w Hq) as (w1 & Hrun & Hst & Hout & Hq1).
  rewrite Hrun. cbn [fst snd].
  destruct (delete_coldstart_quiet env w1 Hq1) as (w2 & Hrun2 & Hst2 & Hout2 & _).
  rewrite Hrun2. cbn [fst snd].
  rewrite Hst2, Hout2, Hout, Hst, <- app_assoc. done.
Qed.

Lemma eraser_twice_witness :
  quiet (oracle (holding {[py "A" := post 0; py "B" := post 1]})) = true /\
  stdout (snd (delete_coldstart ∅ (snd (delete_coldstart ∅
            (holding {[py "A" := post 0; py "B" := post 1]}))))) =
    [report_deleted 2; report_deleted 0].
Proof.
  split; [reflexivity|].
  pose proof (eraser_twice ∅ (holding {[py "A" := post 0; py "B" := post 1]})
                eq_refl) as (_ & _ & _ & Hout).
  exact Hout.
Defined.

(** X16. Eraser, then Loader, no driver call failing: the table that results
    does not depend on what the table held before. It has exactly the trimmed
    first fields of the non-blank rows as feed ids, each with type "post" and
    the index of the first row that carries it. *)
Theorem erase_then_load env hdr rows w :
  quiet (oracle w) = true ->
  let w1 := snd (delete_coldstart env w) in
  let w2 := snd (load_coldstart env (csv_file hdr rows) w1) in
  fst (delete_coldstart env w) = Ok tt /\
  fst (load_coldstart env (csv_file hdr rows) w1) = Ok tt /\
  stored w2 = foldl apply_statement ∅ (spec_inserts rows) /\
  (forall fid,
     is_Some (stored w2 !! fid) <->
     exists i field0 rest,
       rows !! i = Some (field0 :: rest) /\ whitespace_only field0 = false /\
       fid = strip field0) /\
  (forall i field0 rest,
     rows !! i = Some (field0 :: rest) -> whitespace_only field0 = false ->
     (forall j g rest', (j < i)%nat -> rows !! j = Some (g :: rest') ->
                        whitespace_only g = false -> strip g <> strip field0) ->
     stored w2 !! strip field0 = Some (post (Z.of_nat i))).
Proof.
  intros Hq w1 w2. subst w1 w2.
  destruct (delete_coldstart_quiet env w Hq) as (w1 & Hrun & Hst & _ & Hq1).
  rewrite Hrun. cbn [fst snd].
  destruct (load_coldstart_quiet env hdr rows w1 Hq1) as (w2 & Hrun2 & Hl).
  rewrite Hrun2. cbn [fst snd]. destruct Hl as (Hst2 & _).
  rewrite Hst in Hst2. rewrite Hst2.
  split; [done|]. split; [done|]. split; [done|]. split.
  - intros fid. rewrite <- elem_of_dom, dom_foldl by apply inserts_from_keys.
    rewrite dom_empty_L. split.
    + intros [H|(s & Hs & Hk)]; [by apply not_elem_of_empty in H|].
      apply elem_of_inserts_from in Hs as (i & f & rest & Hrow & Hf & ->).
      injection Hk as <-. by exists i, f, rest.
    + intros (i & f & rest & Hrow & Hf & ->). right.
      exists (INSERT_INTO_feed_coldstart (strip f) (py "post") (Z.of_nat (0 + i))).
      split; [|done]. apply elem_of_inserts_from. by exists i, f, rest.
  - intros i f rest Hrow Hf Hfirst.
    by apply (lookup_after_inserts rows 0 ∅ i f rest).
Qed.

Lemma erase_then_load_witness :
  quiet (oracle (holding {[py "A" := post 9; py "Z" := post 4]})) = true /\
  stored (snd (load_coldstart ∅ (csv_file header [[py "B"]; [py "A"]; [py "B "]])
            (snd (delete_coldstart ∅
                    (holding {[py "A" := post 9; py "Z" := post 4]}))))) =
    foldl apply_statement ∅ (spec_inserts [[py "B"]; [py "A"]; [py "B "]]).
Proof.
  split; [reflexivity|].
  pose proof (erase_then_load ∅ header [[py "B"]; [py "A"]; [py "B "]]
                (holding {[py "A" := post 9; py "Z" := post 4]}) eq_refl)
    as (_ & _ & Hst & _).
  exact Hst.
Defined.

(** X17. Loader, then Eraser, no driver call failing: the Eraser prints the
    number of rows the table holds after the load, which is at most the
    number it held before plus the count the Loader printed, and leaves the
    table empty. *)
Theorem load_then_erase env hdr rows w :
  quiet (oracle w) = true ->
  let w1 := snd (load_coldstart env (csv_file hdr rows) w) in
  let w2 := snd (delete_coldstart env w1) in
  let count := length (List.filter (fun row => negb (blank_row row)) rows) in
  fst (load_coldstart env (csv_file hdr rows) w) = Ok tt /\
  fst (delete_coldstart env w1) = Ok tt /\
  stored w2 = ∅ /\
  stdout w2 =
    stdout w ++
    [report_loaded (Z.of_nat count);
     report_deleted (Z.of_nat (size (stored w1)))] /\
  (size (stored w) <= size (stored w1) <= size (stored w) + count)%nat.
Proof.
  intros Hq w1 w2 count. subst w1 w2 count.
  destruct (load_coldstart_quiet env hdr rows w Hq) as (w1 & Hrun & Hl).
  rewrite Hrun. cbn [fst snd].
  destruct Hl as (Hst & Hout & _ & _ & _ & _ & Hq1).
  destruct (delete_coldstart_quiet env w1 Hq1) as (w2 & Hrun2 & Hst2 & Hout2 & _).
  rewrite Hrun2. cbn [fst snd].
  split; [done|]. split; [done|]. split; [done|]. split.
  - rewrite Hout2, Hout, <- app_assoc. unfold spec_inserts.
    by rewrite length_inserts_from.
  - rewrite Hst. split.
    + apply map_subseteq_size, map_subseteq_spec. intros fid e He.
      apply foldl_keeps; [apply inserts_from_keys | done].
    + rewrite <- (length_inserts_from 0).
      apply size_foldl, inserts_from_keys.
Qed.

Lemma load_then_erase_witness :
  quiet (oracle (holding {[py "A" := post 9]})) = true /\
  stdout (snd (delete_coldstart ∅
            (snd (load_coldstart ∅ (csv_file header [[py "B"]; [py "A"]; []])
                    (holding {[py "A" := post 9]}))))) =
    [report_loaded 2; report_deleted 2].
Proof.
  split; [reflexivity|].
  pose proof (load_then_erase ∅ header [[py "B"]; [py "A"]; []]
                (holding {[py "A" := post 9]}) eq_refl) as (_ & _ & _ & Hout & _).
  rewrite Hout. reflexivity.
Defined.

(** ** Positions *)

(** X18. Among the entries a run of the Loader adds, whatever the file and
    whatever fails, the position tells the feed id: two new entries with the
    same position are the same entry. *)
Theorem loader_new_positions_distinct env fs w fid1 fid2 e1 e2 :
  stored w !! fid1 = None ->
  stored w !! fid2 = None ->
  stored (snd (load_coldstart env fs w)) !! fid1 = Some e1 ->
  stored (snd (load_coldstart env fs w)) !! fid2 = Some e2 ->
  position e1 = position e2 ->
  fid1 = fid2.
Proof.
  intros Hnew1 Hnew2.
  destruct (load_coldstart_table env fs w) as (ss & Hfrom & [-> | ->]);
    [congruence|].
  intros He1 He2 Hpos.
  pose proof (inserts_of_rows_keys _ _ _ Hfrom) as Hkeys.
  apply foldl_lookup_origin in He1; [|done].
  apply foldl_lookup_origin in He2; [|done].
  destruct He1 as [He1|[_ Hin1]]; [congruence|].
  destruct He2 as [He2|[_ Hin2]]; [congruence|].
  apply Hfrom in Hin1 as (i & f & rest & Hi & _ & [= -> _ Hp1]).
  apply Hfrom in Hin2 as (j & g & rest' & Hj & _ & [= -> _ Hp2]).
  assert (i = j) as -> by lia.
  rewrite Hi in Hj. by injection Hj as ->.
Qed.

Lemma loader_new_positions_distinct_witness :
  stored (holding {[py "A" := post 1]}) !! py "B" = None /\
  stored (snd (load_coldstart ∅ (csv_file header [[py "A"]; [py "B"]; [py " B"]])
                 (holding {[py "A" := post 1]}))) !! py "B" = Some (post 1) /\
  position (post 1) = position (post 1) /\
  py "B" = py "B".
Proof.
  split; [reflexivity|]. split; [reflexivity|]. split; [reflexivity|].
  apply (loader_new_positions_distinct ∅
           (csv_file header [[py "A"]; [py "B"]; [py " B"]])
           (holding {[py "A" := post 1]}) (py "B") (py "B") (post 1) (post 1));
    reflexivity.
Defined.

(** ** The connection descriptor *)

(** X19. The descriptor depends on the five variables and on nothing else in
    the environment: environments that agree on them give the same
    descriptor, so setting or unsetting any other variable changes nothing. *)
Theorem config_reads_five_variables_only (env env' : environ) :
  (forall k, k ∈ config_variables -> env !! k = env' !! k) ->
  DB_CONFIG env = DB_CONFIG env' /\
  (forall k v, k ∉ config_variables ->
     DB_CONFIG (<[k := v]> env) = DB_CONFIG env /\
     DB_CONFIG (delete k env) = DB_CONFIG env).
Proof.
  assert (Hagree : forall e1 e2 : environ,
            (forall k, k ∈ config_variables -> e1 !! k = e2 !! k) ->
            DB_CONFIG e1 = DB_CONFIG e2).
  { intros e1 e2 H. unfold DB_CONFIG, getenv.
    rewrite !H; [done|..]; unfold config_variables;
      repeat (first [by left | right]). }
  intros H. split; [by apply Hagree|].
  intros k v Hk. split; apply Hagree; intros k' Hk'.
  - apply lookup_insert_ne. by intros ->.
  - apply lookup_delete_ne. by intros ->.
Qed.

Lemma config_reads_five_variables_only_witness :
  (forall k, k ∈ config_variables ->
     ({[py "DATABASE_PORT" := py "6432"; py "PGHOST" := py "db"]} : environ) !! k =
     ({[py "DATABASE_PORT" := py "6432"]} : environ) !! k) /\
  DB_CONFIG {[py "DATABASE_PORT" := py "6432"; py "PGHOST" := py "db"]} =
  DB_CONFIG {[py "DATABASE_PORT" := py "6432"]}.
Proof.
  assert (H : forall k, k ∈ config_variables ->
     ({[py "DATABASE_PORT" := py "6432"; py "PGHOST" := py "db"]} : environ) !! k =
     ({[py "DATABASE_PORT" := py "6432"]} : environ) !! k).
  { intros k Hk. unfold config_variables in Hk.
    repeat (apply elem_of_cons in Hk as [->|Hk]; [reflexivity|]).
    by apply elem_of_nil in Hk. }
  split; [exact H|].
  apply (config_reads_five_variables_only _ _ H).
Defined.
